(** * Testing-Insights-Agent: memory store, SQL guard and query router

  A shallow embedding of [memory.py], [db.py] and the routing and
  metric-folding parts of [graph.py], with the properties of the
  natural-language specification stated over it.

  Modelling conventions.
  - Python [str] values are Rocq [string]s read as ASCII text: codes
    above 127 are caseless characters that are neither white space nor
    word characters.
  - Python [float] values (scores, timestamps, metric values) are exact
    rationals [Q]; every comparison the code makes is the corresponding
    comparison on [Q].
  - Python [int] arguments are [Z], with slicing written out for
    negative bounds.
  - An exception is a value of [exn] carried by the [Res] type; a
    [try]/[except Exception] block is [try_except]. *)

From stdpp Require Import base option list gmap strings.
From Stdlib Require Import ZArith QArith Qminmax Lia Lqa Bool List Ascii String.
From Stdlib Require Import Sorting.Permutation Sorting.Sorted.
From Stdlib Require Strings.Byte.
Import ListNotations.

Set Warnings "-register-all".

Local Open Scope Z_scope.

(** ** Python string primitives *)

Module Py.

Definition code (c : ascii) : N := N_of_ascii c.

Definition in_range (lo hi : N) (c : ascii) : bool :=
  (N.leb lo (code c) && N.leb (code c) hi)%bool.

Definition is_upper (c : ascii) : bool := in_range 65 90 c.
Definition is_lower (c : ascii) : bool := in_range 97 122 c.
Definition is_digit (c : ascii) : bool := in_range 48 57 c.

(** [str.isspace] on the ASCII range: TAB..CR, FS..US and the blank. *)
Definition is_space (c : ascii) : bool :=
  (in_range 9 13 c || in_range 28 32 c)%bool.

(** The class [\w] of [re] on the ASCII range. *)
Definition is_word (c : ascii) : bool :=
  (is_lower c || is_upper c || is_digit c || N.eqb (code c) 95)%bool.

(** The class [[a-z0-9_]] of [_tokenize]. *)
Definition is_token_char (c : ascii) : bool :=
  (is_lower c || is_digit c || N.eqb (code c) 95)%bool.

Definition lower_char (c : ascii) : ascii :=
  if is_upper c then ascii_of_N (code c + 32) else c.

(** [s.lower()] *)
Fixpoint lower (s : string) : string :=
  match s with
  | EmptyString => EmptyString
  | String c s' => String (lower_char c) (lower s')
  end.

(** [s.lstrip()] *)
Fixpoint lstrip (s : string) : string :=
  match s with
  | EmptyString => EmptyString
  | String c s' => if is_space c then lstrip s' else s
  end.

(** [s.rstrip()]: a character is kept when it is not white space or
    when something survives to its right. *)
Fixpoint rstrip (s : string) : string :=
  match s with
  | EmptyString => EmptyString
  | String c s' =>
      match rstrip s' with
      | EmptyString => if is_space c then EmptyString else String c EmptyString
      | r => String c r
      end
  end.

(** [s.strip()] *)
Definition strip (s : string) : string := rstrip (lstrip s).

(** [s.startswith(p)] *)
Definition startswith (s p : string) : bool := String.prefix p s.

(** [needle in hay] on strings. *)
Fixpoint contains (needle hay : string) : bool :=
  (String.prefix needle hay ||
   match hay with
   | EmptyString => false
   | String _ hay' => contains needle hay'
   end)%bool.

(** Truthiness of a string: [bool(s)]. *)
Definition truthy (s : string) : bool :=
  match s with EmptyString => false | _ => true end.

(** [any(t in q for t in triggers)] *)
Definition any_in (triggers : list string) (q : string) : bool :=
  existsb (fun t => contains t q) triggers.

(** Python's [xs[:k]] for an [int] k: a negative bound counts from the
    end. *)
Definition slice_to {A} (xs : list A) (k : Z) : list A :=
  if 0 <=? k then firstn (Z.to_nat k) xs
  else firstn (List.length xs - Z.to_nat (- k))%nat xs.

(** Python's [xs[-n:]] for an [int] n: the start index is [-n]; a
    negative index counts from the end (clamped at 0), a non-negative
    one (so also [-0]) counts from the front. *)
Definition slice_last {A} (xs : list A) (n : Z) : list A :=
  let start := - n in
  if start <? 0 then skipn (List.length xs - Z.to_nat n)%nat xs
  else skipn (Z.to_nat start) xs.

End Py.

(** ** Regular expressions of the program *)

Module Re.

Definition wordish (c : option ascii) : bool :=
  match c with Some a => Py.is_word a | None => false end.

(** [\b] holds between two neighbouring positions when exactly one of
    them is a word character; the edges of the text count as non-word. *)
Definition boundary (before after : option ascii) : bool :=
  xorb (wordish before) (wordish after).

Definition head (s : string) : option ascii :=
  match s with EmptyString => None | String c _ => Some c end.

Fixpoint last_char (prev : option ascii) (s : string) : option ascii :=
  match s with
  | EmptyString => prev
  | String c s' => last_char (Some c) s'
  end.

Fixpoint drop (n : nat) (s : string) : string :=
  match n, s with
  | O, _ => s
  | S n', String _ s' => drop n' s'
  | S _, EmptyString => EmptyString
  end.

(** Does [\b lit \b] match at the current position, [prev] being the
    character just before it? *)
Definition match_here (prev : option ascii) (lit s : string) : bool :=
  (String.prefix lit s
   && boundary prev (head s)
   && boundary (last_char prev lit) (head (drop (String.length lit) s)))%bool.

Fixpoint search_from (prev : option ascii) (lit s : string) : bool :=
  (match_here prev lit s ||
   match s with
   | EmptyString => false
   | String c s' => search_from (Some c) lit s'
   end)%bool.

(** [re.search(rf"\b{lit}\b", s)] as a truth value. *)
Definition search_word (lit s : string) : bool := search_from None lit s.

(** [re.findall(r"[a-z0-9_]+", s)]: the maximal runs of token
    characters, left to right. [cur] is the run being read, reversed. *)
Fixpoint findall_from (cur : list ascii) (s : string) : list string :=
  let flush rest :=
    match cur with
    | [] => rest
    | _ => string_of_list_ascii (rev cur) :: rest
    end in
  match s with
  | EmptyString => flush []
  | String c s' =>
      if Py.is_token_char c then findall_from (c :: cur) s'
      else flush (findall_from [] s')
  end.

Definition findall_tokens (s : string) : list string := findall_from [] s.

End Re.

(** ** Exceptions *)

Inductive exn : Type :=
| IntegrityError (msg : string)
| EngineError (msg : string)
| JSONDecodeError
| AttributeError
| TypeError
| ValueError
| OverflowError.

Inductive Res (A : Type) : Type :=
| Ok (a : A)
| Raise (e : exn).

Arguments Ok {A} a.
Arguments Raise {A} e.

Definition bind {A B} (r : Res A) (k : A -> Res B) : Res B :=
  match r with
  | Ok a => k a
  | Raise e => Raise e
  end.

Notation "'bind!' x ':=' r 'in' k" := (bind r (fun x => k))
  (at level 10, x name, r at level 100, k at level 200).

(** [try: body except Exception as e: handler(e)] *)
Definition try_except {A} (body : Res A) (handler : exn -> Res A) : Res A :=
  match body with
  | Ok a => Ok a
  | Raise e => handler e
  end.

(** ** memory.py *)

Module Memory.

Local Open Scope Q_scope.

(** [_tokenize] *)
Definition tokenize (text : string) : list string :=
  let text := Py.lower text in
  let toks := Re.findall_tokens text in
  List.filter (fun t => Nat.leb 3 (String.length t)) toks.

(** [_keyword_score] *)
Definition keyword_score (query doc : string) : Q :=
  let q := Py.strip (Py.lower query) in
  let d := Py.lower doc in
  let q_toks : gset string := list_to_set (tokenize q) in
  if bool_decide (q_toks = ∅) then 0
  else
    let d_toks : gset string := list_to_set (tokenize d) in
    let overlap := size (q_toks ∩ d_toks) in
    let base := inject_Z (Z.of_nat overlap)
                / inject_Z (Z.max (Z.of_nat (size q_toks)) 1) in
    if (Py.truthy q && Py.contains q d)%bool then base + (25 # 100) else base.

Definition bytes : Type := list Byte.byte.

Definition bytes_eqb (a b : bytes) : bool :=
  if list_eq_dec Byte.byte_eq_dec a b then true else false.

(** A row of table [users]. *)
Record user_row : Type := mk_user {
  u_id : Z;
  u_username : string;
  u_salt_b64 : string;
  u_pw_hash_b64 : string;
  u_created_ts : Q
}.

(** A row of table [memories]. *)
Record memory_row : Type := mk_memory {
  m_id : Z;
  m_user_id : Z;
  m_created_ts : Q;
  m_text : string
}.

(** The SQLite file: both tables in rowid order, and for each the largest
    rowid handed out so far (AUTOINCREMENT). *)
Record store : Type := mk_store {
  users : list user_row;
  users_seq : Z;
  memories : list memory_row;
  memories_seq : Z
}.

(** [_init_db] on a fresh file. *)
Definition init_db : store :=
  {| users := []; users_seq := 0%Z; memories := []; memories_seq := 0%Z |}.

Definition username_taken (db : store) (username : string) : bool :=
  existsb (fun r => String.eqb (u_username r) username) (users db).

(** [add_memory]; [now] is the value of [time.time()]. *)
Definition add_memory (db : store) (user_id : Z) (text : string) (now : Q) : store :=
  let text := Py.strip text in
  if negb (Py.truthy text) then db
  else
    let id := (memories_seq db + 1)%Z in
    {| users := users db;
       users_seq := users_seq db;
       memories := memories db ++ [mk_memory id user_id now text];
       memories_seq := id |}.

(** Stable sort by decreasing key: [xs.sort(key=.., reverse=True)]. An
    element goes in front of the first one whose key is not larger. *)
Fixpoint insert_desc {A} (key : A -> Q) (x : A) (l : list A) : list A :=
  match l with
  | [] => [x]
  | y :: l' =>
      if Qle_bool (key y) (key x) then x :: y :: l'
      else y :: insert_desc key x l'
  end.

Definition sort_desc {A} (key : A -> Q) (l : list A) : list A :=
  List.fold_right (insert_desc key) [] l.

(** SQL [LIMIT n]: a negative bound means no bound. *)
Definition sql_limit {A} (n : Z) (l : list A) : list A :=
  if (n <? 0)%Z then l else firstn (Z.to_nat n) l.

(** The [SELECT created_ts, text FROM memories WHERE user_id=? ORDER BY
    created_ts DESC LIMIT ?] of [search]. SQL leaves the order of equal
    timestamps open; the model takes the backward scan of the index
    [idx_mem_user_ts], which yields the later row first. *)
Definition fetch_recent (db : store) (user_id : Z) (candidate_limit : Z)
  : list (Q * string) :=
  let mine := List.filter (fun r => (m_user_id r =? user_id)%Z) (memories db) in
  let ordered := sort_desc m_created_ts (rev mine) in
  sql_limit candidate_limit (List.map (fun r => (m_created_ts r, m_text r)) ordered).

Definition age_days (now ts : Q) : Q := Qmax ((now - ts) / 86400) 0.

Definition recency_boost (now ts : Q) : Q :=
  (10 # 100) * (1 / (1 + age_days now ts / 30)).

(** The loop body of [search]: the pair appended for one row, if any. *)
Definition score_row (q : string) (min_score now : Q) (row : Q * string)
  : option (Q * string) :=
  let '(ts, text) := row in
  let s := keyword_score q text in
  let s2 := s + recency_boost now ts in
  if Qle_bool min_score s then Some (s2, text) else None.

Definition scored_rows (q : string) (min_score now : Q) (rows : list (Q * string))
  : list (Q * string) :=
  omap (score_row q min_score now) rows.

(** [search]; [now] is the value of [time.time()] read after the fetch. *)
Definition search (db : store) (user_id : Z) (query : string) (k : Z)
    (min_score : Q) (candidate_limit : Z) (now : Q) : list (Q * string) :=
  let q := Py.strip query in
  if negb (Py.truthy q) then []
  else
    let rows := fetch_recent db user_id candidate_limit in
    let scored := scored_rows q min_score now rows in
    Py.slice_to (sort_desc fst scored) k.

(** One entry of [recent_turns]. *)
Record turn : Type := mk_turn { role : string; content : string }.

(** The short-term memory dict: a key that is absent is [None]. *)
Record short_term : Type := mk_short_term {
  recent_turns : option (list turn);
  older_summary : option string
}.

(** [update_short_term_memory] *)
Definition update_short_term_memory (memory : short_term)
    (user_q assistant_a : string) (max_recent_turns : Z) : short_term :=
  let recent := default [] (recent_turns memory) in
  let recent := recent ++ [mk_turn "user" user_q; mk_turn "assistant" assistant_a] in
  {| recent_turns := Some (Py.slice_last recent max_recent_turns);
     older_summary := Some (default EmptyString (older_summary memory)) |}.

(** The credential half of the store. [os.urandom], [hashlib] and
    [base64] are the platform's; the salt drawn by [os.urandom(16)] and
    the clock reading are arguments. *)
Section Credentials.

Variable pbkdf2_hash_password : string -> bytes -> bytes.
Variable b64encode : bytes -> string.
Variable b64decode : string -> bytes.

(** [create_user]: the INSERT fails on the UNIQUE constraint of
    [users.username], and then nothing is written. *)
Definition create_user (db : store) (username password : string)
    (salt : bytes) (now : Q) : Res (Z * store) :=
  let pw_hash := pbkdf2_hash_password password salt in
  if username_taken db username
  then Raise (IntegrityError "UNIQUE constraint failed: users.username")
  else
    let id := (users_seq db + 1)%Z in
    let row := mk_user id username (b64encode salt) (b64encode pw_hash) now in
    Ok (id, {| users := users db ++ [row];
               users_seq := id;
               memories := memories db;
               memories_seq := memories_seq db |}).

(** [authenticate] *)
Definition authenticate (db : store) (username password : string) : option Z :=
  match List.find (fun r => String.eqb (u_username r) username) (users db) with
  | None => None
  | Some row =>
      let salt := b64decode (u_salt_b64 row) in
      let expected := b64decode (u_pw_hash_b64 row) in
      let got := pbkdf2_hash_password password salt in
      if bytes_eqb got expected then Some (u_id row) else None
  end.

(** [create_or_auth] *)
Definition create_or_auth (db : store) (username password : string)
    (salt : bytes) (now : Q) : Res (Z * store) :=
  match authenticate db username password with
  | Some uid => Ok (uid, db)
  | None => create_user db username password salt now
  end.

End Credentials.

End Memory.

(** ** db.py *)

Module Db.

Local Open Scope string_scope.

Definition banned : list string :=
  ["insert"; "update"; "delete"; "drop"; "alter"; "truncate"; "create";
   "merge"; "grant"; "revoke"].

(** [ReadOnlyDB._is_safe_select] *)
Definition is_safe_select (sql : string) : bool :=
  let s := Py.lower (Py.strip sql) in
  if negb (Py.startswith s "select") then false
  else negb (existsb (fun b => Re.search_word b s) banned).

(** [str(e)] *)
Definition exn_str (e : exn) : string :=
  match e with
  | IntegrityError msg => msg
  | EngineError msg => msg
  | JSONDecodeError => "Expecting value"
  | AttributeError => "object has no attribute"
  | TypeError => "bad operand type"
  | ValueError => "could not convert"
  | OverflowError => "int too large to convert to float"
  end.

Definition newline : string := String (ascii_of_nat 10) EmptyString.

(** [sep.join(parts)] *)
Definition join (sep : string) (parts : list string) : string :=
  String.concat sep parts.

Definition table_line (cells : list string) : string :=
  "| " ++ join " | " cells ++ " |".

(** A fetched value [v] is [None] or carries its [str(v)]. *)
Definition cell : Type := option string.

Definition render_cell (v : cell) : string := default "" v.

(** The markdown rendering of [run_sql], lines 38 to 47. *)
Definition render (cols : list string) (rows : list (list cell)) : string :=
  match cols with
  | [] => "(no columns)"
  | _ =>
      let header := table_line cols in
      let sep := table_line (List.map (fun _ => "---") cols) in
      let body_lines := List.map (fun r => table_line (List.map render_cell r)) rows in
      let body_lines :=
        match body_lines with
        | [] => [table_line ("(no rows)" :: repeat "" (List.length cols - 1))]
        | _ => body_lines
        end in
      join newline ([header; sep] ++ body_lines)
  end.

Section Engine.

(** The SQLAlchemy engine: [conn.execute(text(sql))], [fetchmany] and
    [keys] as one call, which yields the column names and the fetched rows
    or raises. *)
Variable execute_fetch : string -> Z -> Res (list string * list (list cell)).

(** [ReadOnlyDB.run_sql] *)
Definition run_sql (sql : string) (limit_rows : Z) : Res string :=
  if negb (is_safe_select sql)
  then Ok ("SQL_ERROR: Unsafe or invalid SQL detected: " ++ sql)
  else
    try_except
      (bind! res := execute_fetch sql limit_rows in
       Ok (render (fst res) (snd res)))
      (fun e => Ok ("SQL_ERROR: " ++ exn_str e)).

End Engine.

End Db.

(** ** graph.py *)

Module Graph.

Local Open Scope string_scope.

(** [_needs_sql] *)
Definition needs_sql (user_q : string) : bool :=
  let q := Py.lower user_q in
  let triggers := ["show"; "give"; "find"; "compare"; "insight"; "trend"; "top";
                   "count"; "sum"; "percent"; "table"; "rows"; "columns"] in
  (Py.any_in triggers q || (Re.search_word "from" q || Re.search_word "select" q))%bool.

(** [_is_predictive] *)
Definition is_predictive (user_q : string) : bool :=
  let q := Py.lower user_q in
  let triggers := ["suggest"; "recommend"; "next test"; "predict";
                   "what should we do"; "how to improve"; "strategy"; "proposal"] in
  Py.any_in triggers q.

Inductive Intent : Type := Predictive | SqlAnalytic | PlainQA.

(** The branch [handle_query] takes: the test of line 66, then the test
    of line 80, then the path of line 136. *)
Definition classify (user_q : string) : Intent :=
  if is_predictive user_q then Predictive
  else if needs_sql user_q then SqlAnalytic
  else PlainQA.

(** What [json.loads] returns. *)
Inductive json : Type :=
| JNull
| JBool (b : bool)
| JInt (z : Z)
| JFloat (q : Q)
| JStr (s : string)
| JArr (l : list json)
| JObj (kvs : list (string * json)).

(** [bool(v)] *)
Definition json_truthy (v : json) : bool :=
  match v with
  | JNull => false
  | JBool b => b
  | JInt z => negb (z =? 0)%Z
  | JFloat q => negb (Qeq_bool q 0)
  | JStr s => Py.truthy s
  | JArr l => match l with [] => false | _ => true end
  | JObj kvs => match kvs with [] => false | _ => true end
  end.

(** [(parsed or {})] *)
Definition or_empty_dict (parsed : json) : json :=
  if json_truthy parsed then parsed else JObj [].

(** [v.items()]: only a dict has it. *)
Definition items (v : json) : Res (list (string * json)) :=
  match v with
  | JObj kvs => Ok kvs
  | _ => Raise AttributeError
  end.

(** The largest magnitude of an [int] that [float] still converts. *)
Definition float_int_bound : Z := (2 ^ 1024 - 2 ^ 970)%Z.

Section Metrics.

(** [json.loads] and the parser of [float] on a [str] are the platform's. *)
Variable json_loads : string -> Res json.
Variable float_of_str : string -> option Q.

(** [float(v)] *)
Definition py_float (v : json) : Res Q :=
  match v with
  | JNull => Raise TypeError
  | JBool b => Ok (if b then 1%Q else 0%Q)
  | JInt z => if (Z.abs z <? float_int_bound)%Z then Ok (inject_Z z)
              else Raise OverflowError
  | JFloat q => Ok q
  | JStr s => match float_of_str s with
              | Some q => Ok q
              | None => Raise ValueError
              end
  | JArr _ => Raise TypeError
  | JObj _ => Raise TypeError
  end.

(** Lines 103 to 106: one turn of the loop, with its own [try]. The key
    of a JSON object is a [str] already, so [str(k)] is [k]. *)
Definition store_metric (metrics : gmap string Q) (kv : string * json)
  : Res (gmap string Q) :=
  try_except
    (bind! f := py_float (snd kv) in Ok (<[fst kv := f]> metrics))
    (fun _ => Ok metrics).

(** The [for] loop of line 102. *)
Fixpoint store_metrics (metrics : gmap string Q) (kvs : list (string * json))
  : Res (gmap string Q) :=
  match kvs with
  | [] => Ok metrics
  | kv :: rest =>
      bind! metrics' := store_metric metrics kv in
      store_metrics metrics' rest
  end.

(** Lines 100 to 108 of [handle_query]: the metric extraction step on the
    model's reply [metric_text]. *)
Definition extract_metrics (metrics : gmap string Q) (metric_text : string)
  : Res (gmap string Q) :=
  try_except
    (bind! parsed := (if Py.truthy metric_text then json_loads metric_text
                      else Ok (JObj [])) in
     bind! kvs := items (or_empty_dict parsed) in
     store_metrics metrics kvs)
    (fun _ => Ok metrics).

End Metrics.

End Graph.

(** ** Notions of the specification *)

Module Spec.

(** All turns of the session once the pair of one call is appended. *)
Definition appended (memory : Memory.short_term) (user_q assistant_a : string)
  : list Memory.turn :=
  default [] (Memory.recent_turns memory)
  ++ [Memory.mk_turn "user" user_q; Memory.mk_turn "assistant" assistant_a].

(** [w] occurs in [s] as a whole word: no word character touches the
    occurrence on either side. *)
Definition whole_word_in (w s : string) : Prop :=
  exists pre post : string,
    s = String.append pre (String.append w post) /\
    Re.wordish (Re.last_char None pre) = false /\
    Re.wordish (Re.head post) = false.

(** The text the SQL guard looks at. *)
Definition normalized (sql : string) : string := Py.lower (Py.strip sql).

(** A literal whose first and last characters are word characters. *)
Definition wordy (w : string) : bool :=
  (Re.wordish (Re.head w) && Re.wordish (Re.last_char None w))%bool.

(** Non-increasing order of the keys. *)
Definition desc {A} (key : A -> Q) (a b : A) : Prop := (key b <= key a)%Q.

(** A text that is empty or white space only. *)
Fixpoint blank (s : string) : bool :=
  match s with
  | EmptyString => true
  | String c s' => (Py.is_space c && blank s')%bool
  end.

(** How many entries of [user_id] carry a timestamp of [now] or later. *)
Definition later_rows (db : Memory.store) (user_id : Z) (now : Q) : nat :=
  List.length
    (List.filter (fun r => Qle_bool now (Memory.m_created_ts r))
       (List.filter (fun r => (Memory.m_user_id r =? user_id)%Z) (Memory.memories db))).

(** The test of the WHERE clause [username=?]. *)
Definition by_name (username : string) (r : Memory.user_row) : bool :=
  String.eqb (Memory.u_username r) username.

(** A JSON value that is a number by its type. *)
Definition json_number (v : Graph.json) : bool :=
  match v with
  | Graph.JInt _ | Graph.JFloat _ => true
  | _ => false
  end.

(** The value the last pair of [kvs] under [key] that [float] converts
    leaves in the map, if there is such a pair. *)
Fixpoint last_converted (float_of_str : string -> option Q) (key : string)
    (kvs : list (string * Graph.json)) : option Q :=
  match kvs with
  | [] => None
  | (k, v) :: rest =>
      match last_converted float_of_str key rest with
      | Some f => Some f
      | None =>
          if String.eqb k key
          then match Graph.py_float float_of_str v with
               | Ok f => Some f
               | Raise _ => None
               end
          else None
      end
  end.

End Spec.

(** ** A stand-in platform

    Small total functions in the place of PBKDF2 and base64, to run the
    credential functions on examples. *)

Module Toy.

Definition pbkdf2 (password : string) (salt : Memory.bytes) : Memory.bytes :=
  (list_byte_of_string password ++ salt)%list.

Definition b64encode (b : Memory.bytes) : string := string_of_list_byte b.

Definition b64decode (s : string) : Memory.bytes := list_byte_of_string s.

Definition salt0 : Memory.bytes := [Byte.x01; Byte.x02].

Definition salt1 : Memory.bytes := [Byte.x03; Byte.x04].

(** The store after [create_user("alice", "secret")] on a fresh file. *)
Definition alice_db : Memory.store :=
  {| Memory.users :=
       [Memory.mk_user 1 "alice" (b64encode salt0)
          (b64encode (pbkdf2 "secret" salt0)) 0%Q];
     Memory.users_seq := 1;
     Memory.memories := [];
     Memory.memories_seq := 0 |}.

(** A reader of decimal digits in the place of [float] on a [str]. *)
Definition float_of_str (s : string) : option Q :=
  if String.eqb s "0.82" then Some (82 # 100)%Q
  else if String.eqb s "7" then Some 7%Q
  else None.

(** A parser that knows two replies: the first stands for an object with
    a number, a null, a boolean and a numeric string, the second for an
    array. *)
Definition json_loads (s : string) : Res Graph.json :=
  if String.eqb s "object reply"
  then Ok (Graph.JObj [("pass_rate"%string, Graph.JFloat (82 # 100)%Q);
                       ("owner"%string, Graph.JNull);
                       ("flaky"%string, Graph.JBool true);
                       ("runs"%string, Graph.JStr "7")])
  else if String.eqb s "array reply"
  then Ok (Graph.JArr [Graph.JInt 1; Graph.JInt 2])
  else Raise JSONDecodeError.

End Toy.

(** ** llm.py *)

Module Llm.

Local Open Scope string_scope.

(** The messages of [langchain_core]: the two classes the program builds
    and any other [BaseMessage]. *)
Inductive message : Type :=
| SystemMessage (content : string)
| HumanMessage (content : string)
| OtherMessage (content : string).

Definition content (m : message) : string :=
  match m with
  | SystemMessage c => c
  | HumanMessage c => c
  | OtherMessage c => c
  end.



Section Client.

(** [client.chat.completions.create] with the model, temperature and
    token cap of the wrapper: it yields [choices[0].message.content],
    which may be [None], or raises. *)
Variable completions_create : list (string * string) -> Res (option string).


End Client.

End Llm.

(** ** graph.py: the node *)

Module Orchestrator.
Import Llm.

Local Open Scope string_scope.

(** The keys of [AppState] the node reads; an absent key is [None]. The
    node updates the dicts it is handed in place; the model returns the
    new values. *)
Record app_state : Type := mk_state {
  st_user_id : option Z;
  st_user_query : option string;
  st_memory : option Memory.short_term;
  st_metrics : option (gmap string Q)
}.

(** The dict the node returns. *)
Record node_update : Type := mk_update {
  answer : string;
  memory : Memory.short_term;
  metrics : gmap string Q;
  sql : option string;
  sql_results : option string
}.

(** A computation on the long-term store that may raise. *)
Definition M (A : Type) : Type := Memory.store -> Res A * Memory.store.

Definition ret {A} (a : A) : M A := fun s => (Ok a, s).

Definition bindM {A B} (m : M A) (k : A -> M B) : M B :=
  fun s =>
    match m s with
    | (Ok a, s') => k a s'
    | (Raise e, s') => (Raise e, s')
    end.

Definition lift {A} (r : Res A) : M A := fun s => (r, s).

Definition read {A} (f : Memory.store -> A) : M A := fun s => (Ok (f s), s).

Definition write (f : Memory.store -> Memory.store) : M unit :=
  fun s => (Ok tt, f s).

Notation "'do!' x ':=' m 'in' k" := (bindM m (fun x => k))
  (at level 10, x name, m at level 100, k at level 200).

Definition nl : string := Db.newline.

Definition upper_char (c : ascii) : ascii :=
  if Py.is_lower c then ascii_of_N (Py.code c - 32) else c.

(** [s.upper()] *)
Fixpoint upper (s : string) : string :=
  match s with
  | EmptyString => EmptyString
  | String c s' => String (upper_char c) (upper s')
  end.

(** [state.get("memory") or {"older_summary": "", "recent_turns": []}]: a
    dict without keys is falsy. *)
Definition memory_or_default (m : option Memory.short_term) : Memory.short_term :=
  let fresh := Memory.mk_short_term (Some []) (Some "") in
  match m with
  | None => fresh
  | Some m' =>
      match Memory.recent_turns m', Memory.older_summary m' with
      | None, None => fresh
      | _, _ => m'
      end
  end.

Section Node.

(** The collaborators of [build_graph]: the chat model, indexed by the
    position of the call within one run of the node and giving the
    [content] of the reply; the engine behind [db]; the parsers used by
    the metric step; the clock readings of [search] and [add_memory]. *)
Variable chat : nat -> list message -> Res string.
Variable execute_fetch : string -> Z -> Res (list string * list (list Db.cell)).
Variable json_loads : string -> Res Graph.json.
Variable float_of_str : string -> option Q.
Variable now_search now_add : Q.

(** The four constants of [prompts.py]. *)
Variable SQL_GEN_SYSTEM_PROMPT QA_SYSTEM_PROMPT : string.
Variable METRIC_EXTRACTION_PROMPT PREDICTIVE_SYSTEM_PROMPT : string.

(** The renderings [f"{s:.3f}"] of a score and [f"{metrics}"] of the
    metrics dict. *)
Variable format_score : Q -> string.
Variable format_metrics : gmap string Q -> string.

(** Lines 55 to 63: the context messages. *)
Definition context_msgs (lt_hits : list (Q * string)) (mem : Memory.short_term)
  : list message :=
  let hits_msgs :=
    match lt_hits with
    | [] => []
    | _ =>
        let mem_text :=
          Db.join nl
            (List.map (fun h => "- (score=" ++ format_score (fst h) ++ ") " ++ snd h)
               lt_hits) in
        [HumanMessage ("Relevant long-term memories:" ++ nl ++ mem_text)]
    end in
  let summary_msgs :=
    if Py.truthy (default "" (Memory.older_summary mem))
    then [HumanMessage ("Earlier summary:" ++ nl
                        ++ default "" (Memory.older_summary mem))]
    else [] in
  let turn_msgs :=
    List.map
      (fun t => HumanMessage (upper (Memory.role t) ++ ": " ++ Memory.content t))
      (default [] (Memory.recent_turns mem)) in
  List.app hits_msgs (List.app summary_msgs turn_msgs).

(** [if user_id is not None: lt_store.add_memory(user_id, text)] *)
Definition remember (user_id : option Z) (text : string) : M unit :=
  match user_id with
  | Some uid => write (fun s => Memory.add_memory s uid text now_add)
  | None => ret tt
  end.

(** [handle_query] *)
Definition handle_query (state : app_state) : M node_update :=
  let user_id := st_user_id state in
  let user_q := default "" (st_user_query state) in
  let mem := memory_or_default (st_memory state) in
  let metrics := default ∅ (st_metrics state) in
  do! lt_hits :=
    (match user_id with
     | Some uid =>
         read (fun s => Memory.search s uid user_q 5 (15 # 100) 300 now_search)
     | None => ret []
     end) in
  let ctx := context_msgs lt_hits mem in
  if Graph.is_predictive user_q then
    let prompt :=
      SystemMessage PREDICTIVE_SYSTEM_PROMPT :: List.app ctx
         [HumanMessage ("User question:" ++ nl ++ user_q ++ nl ++ nl
                         ++ "Known metrics:" ++ nl ++ format_metrics metrics)] in
    do! reply := lift (chat 0 prompt) in
    let resp := Py.strip reply in
    let mem := Memory.update_short_term_memory mem user_q resp 6 in
    do! _ := remember user_id
               ("User: " ++ user_q ++ nl ++ "Assistant: " ++ resp) in
    ret (mk_update resp mem metrics None None)
  else if Graph.needs_sql user_q then
    let sql_prompt :=
      SystemMessage SQL_GEN_SYSTEM_PROMPT :: List.app ctx
         [HumanMessage ("User question:" ++ nl ++ user_q ++ nl ++ nl
                         ++ "Return ONLY a SELECT SQL query.")] in
    do! reply := lift (chat 0 sql_prompt) in
    let sql := Py.strip reply in
    do! sql_results := lift (Db.run_sql execute_fetch sql 200) in
    let metric_prompt :=
      [SystemMessage METRIC_EXTRACTION_PROMPT;
       HumanMessage ("SQL results (markdown):" ++ nl ++ sql_results)] in
    do! reply := lift (chat 1 metric_prompt) in
    let metric_text := Py.strip reply in
    do! metrics := lift (Graph.extract_metrics json_loads float_of_str
                           metrics metric_text) in
    let qa_prompt :=
      SystemMessage QA_SYSTEM_PROMPT :: List.app ctx
         [HumanMessage (nl ++ "User question:" ++ nl ++ user_q ++ nl ++ nl
                         ++ "SQL executed:" ++ nl ++ sql ++ nl ++ nl
                         ++ "SQL results:" ++ nl ++ sql_results ++ nl ++ nl
                         ++ "Known structured metrics:" ++ nl
                         ++ format_metrics metrics ++ nl)] in
    do! reply := lift (chat 2 qa_prompt) in
    let answer := Py.strip reply in
    let mem := Memory.update_short_term_memory mem user_q answer 6 in
    do! _ := remember user_id
               ("User: " ++ user_q ++ nl ++ "SQL: " ++ sql ++ nl
                ++ "Result: " ++ sql_results ++ nl ++ "Assistant: " ++ answer) in
    ret (mk_update answer mem metrics (Some sql) (Some sql_results))
  else
    let qa_prompt :=
      SystemMessage QA_SYSTEM_PROMPT :: List.app ctx
         [HumanMessage ("User question:" ++ nl ++ user_q ++ nl ++ nl
                         ++ "Known structured metrics:" ++ nl
                         ++ format_metrics metrics)] in
    do! reply := lift (chat 0 qa_prompt) in
    let answer := Py.strip reply in
    let mem := Memory.update_short_term_memory mem user_q answer 6 in
    do! _ := remember user_id
               ("User: " ++ user_q ++ nl ++ "Assistant: " ++ answer) in
    ret (mk_update answer mem metrics None None).

End Node.

End Orchestrator.

(** ** Stand-ins for the collaborators of the node *)

Module Stub.

Local Open Scope string_scope.

(** A chat model that writes a statement, then a metric reply, then an
    answer. *)
Definition chat (n : nat) (prompt : list Llm.message) : Res string :=
  match n with
  | O => Ok "  SELECT name FROM runs LIMIT 5 "
  | S O => Ok "object reply"
  | _ => Ok " Two runs are listed. "
  end.


(** An engine with one table of two rows. *)
Definition engine (statement : string) (limit_rows : Z)
  : Res (list string * list (list Db.cell)) :=
  Ok (["name"], [[Some "nightly"]; [Some "smoke"]]).

Definition no_format {A} (x : A) : string := "".

Definition state (user_id : option Z) (query : string) : Orchestrator.app_state :=
  Orchestrator.mk_state user_id (Some query) None None.

(** The node over the stand-ins. *)
Definition node (talk : nat -> list Llm.message -> Res string)
    (st : Orchestrator.app_state) (lt_store : Memory.store)
  : Res Orchestrator.node_update * Memory.store :=
  Orchestrator.handle_query talk engine Toy.json_loads Toy.float_of_str 5 6
    "" "" "" "" no_format no_format st lt_store.

End Stub.

(** ** Further notions *)

Module Notions.


(** A text that does not begin with white space. *)
Definition starts_clean (s : string) : bool :=
  match s with
  | EmptyString => true
  | String c _ => negb (Py.is_space c)
  end.

(** Row ids in table order: positive, increasing, and none beyond the
    AUTOINCREMENT counter. *)
Definition ids_ok (ids : list Z) (seq : Z) : Prop :=
  (0 <= seq)%Z /\
  StronglySorted Z.lt ids /\ Forall (fun i => (0 < i <= seq)%Z) ids.

(** A stored memory text: not empty and already trimmed. *)
Definition text_ok (text : string) : Prop :=
  text <> EmptyString /\ Py.strip text = text.

(** The shape of a store that the operations of [LongTermMemorySQLite]
    keep. *)
Definition store_ok (db : Memory.store) : Prop :=
  NoDup (List.map Memory.u_username (Memory.users db)) /\
  ids_ok (List.map Memory.u_id (Memory.users db)) (Memory.users_seq db) /\
  ids_ok (List.map Memory.m_id (Memory.memories db)) (Memory.memories_seq db) /\
  Forall (fun r => text_ok (Memory.m_text r)) (Memory.memories db).

(** The rows of [user_id] in table [memories]. *)
Definition rows_of (db : Memory.store) (user_id : Z) : list Memory.memory_row :=
  List.filter (fun r => (Memory.m_user_id r =? user_id)%Z) (Memory.memories db).

(** A log of turns made of pairs: a user turn, then an assistant turn. *)
Fixpoint paired (l : list Memory.turn) : Prop :=
  match l with
  | [] => True
  | u :: rest =>
      match rest with
      | [] => False
      | a :: l' =>
          Memory.role u = "user"%string /\ Memory.role a = "assistant"%string /\
          paired l'
      end
  end.

(** The key and value pairs the metric step takes from a reply: those of
    the parsed object, and none when the reply is empty, does not parse
    or is no object. *)
Definition reply_pairs (json_loads : string -> Res Graph.json) (metric_text : string)
  : list (string * Graph.json) :=
  if Py.truthy metric_text then
    match json_loads metric_text with
    | Ok v =>
        match Graph.items (Graph.or_empty_dict v) with
        | Ok kvs => kvs
        | Raise _ => []
        end
    | Raise _ => []
    end
  else [].

(** The trigger phrases of [_is_predictive]. *)
Definition predictive_triggers : list string :=
  ["suggest"; "recommend"; "next test"; "predict"; "what should we do";
   "how to improve"; "strategy"; "proposal"]%string.

End Notions.

(** * Properties *)

(** ** The primitives on examples *)

Example lower_ex : Py.lower "SeLeCT * FROM T_1" = "select * from t_1"%string.
Proof. reflexivity. Qed.

Example strip_ex : Py.strip "  a b  " = "a b"%string.
Proof. reflexivity. Qed.

Example findall_ex :
Re.findall_tokens "ab, pass_rate is 82%!" = ["ab"; "pass_rate"; "is"; "82"]%string.
Proof. reflexivity. Qed.

Example search_word_ex :
Re.search_word "drop" "select 1; drop table t" = true /\
Re.search_word "drop" "select drop_count from t" = false.
Proof. split; reflexivity. Qed.

(** ** Query routing *)

Module GraphFacts.
Import Graph.

Local Open Scope string_scope.

Lemma classify_predictive_first (q : string) :
  is_predictive q = true -> classify q = Predictive.
Proof. unfold classify. intros ->. reflexivity. Qed.

Lemma classify_cases (q : string) :
  (classify q = Predictive /\ is_predictive q = true) \/
  (classify q = SqlAnalytic /\ is_predictive q = false /\ needs_sql q = true) \/
  (classify q = PlainQA /\ is_predictive q = false /\ needs_sql q = false).
Proof.
  unfold classify.
  destruct (is_predictive q); [left; split; reflexivity |].
  destruct (needs_sql q); [right; left | right; right]; repeat split.
Qed.

(** C5. Routing is a function of the query text alone that tries the
    predictive test first, the SQL test second and answers plain QA
    otherwise: it always yields one of the three intents, the three
    sample queries of the specification get Predictive, SqlAnalytic and
    PlainQA, and a query on which both tests fire is Predictive. *)
Theorem C5_classify_priority :
  (forall q, exists i, classify q = i /\
     (i = Predictive <-> is_predictive q = true) /\
     (i = SqlAnalytic <-> is_predictive q = false /\ needs_sql q = true) /\
     (i = PlainQA <-> is_predictive q = false /\ needs_sql q = false)) /\
  classify "suggest a strategy" = Predictive /\
  needs_sql "suggest a strategy" = false /\
  classify "show me the top 10 rows from orders" = SqlAnalytic /\
  classify "what is our pass rate" = PlainQA /\
  (forall q, is_predictive q = true -> needs_sql q = true ->
             classify q = Predictive).
Proof.
  split.
  { intros q. exists (classify q). split; [reflexivity |].
    destruct (classify_cases q) as [[-> Hp] | [[-> [Hp Hs]] | [-> [Hp Hs]]]];
      rewrite ?Hp, ?Hs; repeat split; intros; try discriminate;
      intuition discriminate. }
  repeat split; try reflexivity.
  intros q Hp _. now apply classify_predictive_first.
Qed.

End GraphFacts.

(** A query on which both tests fire, routed through the theorem. *)
Lemma C5_classify_priority_witness :
  Graph.is_predictive "suggest which rows to show" = true /\
  Graph.needs_sql "suggest which rows to show" = true /\
  Graph.classify "suggest which rows to show" = Graph.Predictive.
Proof.
  split; [reflexivity |]. split; [reflexivity |].
  apply (proj2 (proj2 (proj2 (proj2 (proj2 GraphFacts.C5_classify_priority)))));
    reflexivity.
Defined.

(** ** The short-term window *)

Module WindowFacts.
Import Memory Spec.

Lemma slice_last_pos {A} (xs : list A) (n : Z) :
  (0 < n)%Z -> Py.slice_last xs n = skipn (List.length xs - Z.to_nat n) xs.
Proof.
  intros Hn. unfold Py.slice_last.
  destruct (Z.ltb_spec (- n) 0) as [_ | H]; [reflexivity | lia].
Qed.

Lemma slice_last_zero {A} (xs : list A) : Py.slice_last xs 0 = xs.
Proof. reflexivity. Qed.

Lemma slice_last_length {A} (xs : list A) (n : Z) :
  (0 < n)%Z -> (Z.of_nat (List.length (Py.slice_last xs n)) <= n)%Z.
Proof.
  intros Hn. rewrite slice_last_pos by assumption.
  rewrite length_skipn. lia.
Qed.

Lemma slice_last_suffix {A} (xs : list A) (n : Z) :
  (0 < n)%Z ->
  xs = firstn (List.length xs - Z.to_nat n) xs ++ Py.slice_last xs n.
Proof.
  intros Hn. rewrite slice_last_pos by assumption.
  symmetry. apply firstn_skipn.
Qed.

(** For a cap of at least one the window is the last [cap] turns of the
    appended log, in their order, and no longer than [cap]. *)
Lemma update_window_positive_cap (memory : short_term)
    (user_q assistant_a : string) (cap : Z) :
  (0 < cap)%Z ->
  exists kept dropped,
    recent_turns (update_short_term_memory memory user_q assistant_a cap) = Some kept /\
    appended memory user_q assistant_a = dropped ++ kept /\
    (Z.of_nat (List.length kept) <= cap)%Z /\
    List.length kept = Nat.min (Z.to_nat cap)
                         (List.length (appended memory user_q assistant_a)).
Proof.
  intros Hc.
  exists (Py.slice_last (appended memory user_q assistant_a) cap).
  exists (firstn (List.length (appended memory user_q assistant_a) - Z.to_nat cap)
            (appended memory user_q assistant_a)).
  split; [reflexivity |].
  split; [now apply slice_last_suffix |].
  split; [now apply slice_last_length |].
  rewrite slice_last_pos by assumption. rewrite length_skipn. lia.
Qed.

(** The scenario of the specification: two pairs present, two more
    appended under the default cap of 6. *)
Example window_scenario :
  let t (r c : string) := mk_turn r c in
  let m0 := mk_short_term
              (Some [t "user" "q1"; t "assistant" "a1"; t "user" "q2"; t "assistant" "a2"])
              (Some EmptyString) in
  let m1 := update_short_term_memory m0 "q3" "a3" 6 in
  let m2 := update_short_term_memory m1 "q4" "a4" 6 in
  recent_turns m2 =
    Some [t "user" "q2"; t "assistant" "a2"; t "user" "q3"; t "assistant" "a3";
          t "user" "q4"; t "assistant" "a4"].
Proof. reflexivity. Qed.

(** C4. With a cap of 0 the slice [recent[-0:]] is the whole list, so the
    update keeps every turn: the window then holds at least the two turns
    just appended and is longer than the cap. *)
Theorem C4_cap_zero_keeps_all (memory : short_term) (user_q assistant_a : string) :
  recent_turns (update_short_term_memory memory user_q assistant_a 0)
    = Some (appended memory user_q assistant_a) /\
  (0 < Z.of_nat (List.length (appended memory user_q assistant_a)))%Z.
Proof.
  split; [reflexivity |].
  unfold appended. rewrite length_app. simpl. lia.
Qed.

End WindowFacts.

(** ** The SQL guard *)

Module DbFacts.
Import Db Spec.

Local Open Scope string_scope.

Lemma append_cons (c : ascii) (a b : string) : String c a ++ b = String c (a ++ b).
Proof. reflexivity. Qed.

Lemma append_nil (b : string) : "" ++ b = b.
Proof. reflexivity. Qed.

Lemma prefix_app (w post : string) : String.prefix w (w ++ post) = true.
Proof.
  induction w as [| c w IH].
  - rewrite append_nil. now destruct post.
  - rewrite append_cons. simpl.
    destruct (ascii_dec c c) as [_ | Hne]; [exact IH | now elim Hne].
Qed.

Lemma prefix_split (w s : string) :
  String.prefix w s = true -> s = w ++ Re.drop (String.length w) s.
Proof.
  revert s. induction w as [| c w IH]; intros s H.
  - reflexivity.
  - destruct s as [| d s]; [discriminate |].
    simpl in H. destruct (ascii_dec c d) as [-> | _]; [| discriminate].
    rewrite append_cons. simpl. f_equal. now apply IH.
Qed.

Lemma drop_app (w post : string) : Re.drop (String.length w) (w ++ post) = post.
Proof.
  induction w as [| c w IH]; [reflexivity |].
  rewrite append_cons. simpl. exact IH.
Qed.

Lemma last_char_cons (prev : option ascii) (c : ascii) (w : string) :
  Re.last_char prev (String c w) = Re.last_char None (String c w).
Proof. reflexivity. Qed.

Lemma match_here_wordy (prev : option ascii) (w s : string) :
  wordy w = true ->
  Re.match_here prev w s = true <->
  exists post, s = w ++ post /\
    Re.wordish prev = false /\ Re.wordish (Re.head post) = false.
Proof.
  intros Hw. unfold wordy in Hw. apply andb_true_iff in Hw as [Hh Hl].
  destruct w as [| c w]; [discriminate |].
  unfold Re.match_here. rewrite last_char_cons.
  split.
  - intros H. apply andb_true_iff in H as [H Hb2].
    apply andb_true_iff in H as [Hp Hb1].
    pose proof (prefix_split _ _ Hp) as Hs.
    exists (Re.drop (String.length (String c w)) s). split; [exact Hs |].
    unfold Re.boundary in *. rewrite Hl in Hb2.
    rewrite Hs in Hb1. simpl in Hb1. simpl in Hh. rewrite Hh in Hb1.
    split.
    + now destruct (Re.wordish prev).
    + now destruct (Re.wordish (Re.head (Re.drop (String.length (String c w)) s))).
  - intros (post & -> & Hprev & Hpost).
    rewrite prefix_app, drop_app. unfold Re.boundary.
    rewrite Hl, Hprev, Hpost. simpl. simpl in Hh. now rewrite Hh.
Qed.

Lemma search_from_wordy (w s : string) :
  wordy w = true ->
  forall prev,
    Re.search_from prev w s = true <->
    exists pre post, s = pre ++ w ++ post /\
      Re.wordish (Re.last_char prev pre) = false /\
      Re.wordish (Re.head post) = false.
Proof.
  intros Hw. induction s as [| c s IH]; intros prev.
  - simpl Re.search_from. rewrite orb_false_r, (match_here_wordy _ _ _ Hw).
    split.
    + intros (post & E & Hp & Hq). exists "", post. now repeat split.
    + intros (pre & post & E & Hp & Hq).
      destruct pre as [| d pre]; [| discriminate].
      exists post. now repeat split.
  - simpl Re.search_from. rewrite orb_true_iff, (match_here_wordy _ _ _ Hw), IH.
    split.
    + intros [(post & E & Hp & Hq) | (pre & post & E & Hp & Hq)].
      * exists "", post. now repeat split.
      * exists (String c pre), post. rewrite E. now repeat split.
    + intros (pre & post & E & Hp & Hq).
      destruct pre as [| d pre].
      * left. exists post. now repeat split.
      * right. simpl in E. injection E as -> E.
        exists pre, post. now repeat split.
Qed.

(** The search for [\bw\b] finds exactly the whole-word occurrences. *)
Lemma search_word_whole (w s : string) :
  wordy w = true -> Re.search_word w s = true <-> whole_word_in w s.
Proof. intros Hw. apply (search_from_wordy w s Hw None). Qed.

Lemma banned_wordy (b : string) : In b banned -> wordy b = true.
Proof.
  unfold banned. simpl.
  intros H; repeat (destruct H as [<- | H]; [reflexivity |]); contradiction.
Qed.

(** The guard, in the words of the specification. *)
Lemma is_safe_select_iff (sql : string) :
  is_safe_select sql = true <->
  Py.startswith (normalized sql) "select" = true /\
  forall b, In b banned -> ~ whole_word_in b (normalized sql).
Proof.
  unfold is_safe_select. fold (normalized sql).
  destruct (Py.startswith (normalized sql) "select");
    cbv beta iota delta [negb].
  - destruct (existsb (fun b => Re.search_word b (normalized sql)) banned) eqn:E.
    + split; [discriminate |]. intros [_ H].
      apply existsb_exists in E as (b & Hb & Hs).
      apply (search_word_whole _ _ (banned_wordy b Hb)) in Hs.
      now elim (H b Hb).
    + split; [| reflexivity]. intros _. split; [reflexivity |].
      intros b Hb Hw.
      apply (search_word_whole _ _ (banned_wordy b Hb)) in Hw.
      assert (existsb (fun b => Re.search_word b (normalized sql)) banned = true)
        as E' by (apply existsb_exists; now exists b).
      rewrite E in E'. discriminate.
  - split; [discriminate | intros [H _]; discriminate].
Qed.

Example guard_rejects_stacked : is_safe_select "SELECT * FROM t; DROP TABLE t" = false.
Proof. reflexivity. Qed.

Example guard_rejects_update : is_safe_select "UPDATE t SET x=1" = false.
Proof. reflexivity. Qed.

Example guard_accepts_select : is_safe_select "SELECT * FROM t LIMIT 5" = true.
Proof. reflexivity. Qed.

(** C3. The runner accepts a statement exactly when its trimmed,
    lower-cased text starts with [select] and holds no banned keyword as a
    whole word. A rejected statement is answered by the fixed prefix
    followed by the original text, an exception of the engine by
    [SQL_ERROR: ] and its message, and every call returns a string. *)
Theorem C3_run_sql_contract
    (execute_fetch : string -> Z -> Res (list string * list (list cell)))
    (sql : string) (limit_rows : Z) :
  (is_safe_select sql = true <->
     Py.startswith (normalized sql) "select" = true /\
     forall b, In b banned -> ~ whole_word_in b (normalized sql)) /\
  (is_safe_select sql = false ->
     run_sql execute_fetch sql limit_rows
       = Ok ("SQL_ERROR: Unsafe or invalid SQL detected: " ++ sql)) /\
  (is_safe_select sql = true ->
     forall e, execute_fetch sql limit_rows = Raise e ->
       run_sql execute_fetch sql limit_rows = Ok ("SQL_ERROR: " ++ exn_str e)) /\
  (is_safe_select sql = true ->
     forall cols rows, execute_fetch sql limit_rows = Ok (cols, rows) ->
       run_sql execute_fetch sql limit_rows = Ok (render cols rows)) /\
  (exists out, run_sql execute_fetch sql limit_rows = Ok out).
Proof.
  split; [apply is_safe_select_iff |].
  unfold run_sql.
  destruct (is_safe_select sql); simpl.
  - split; [discriminate |].
    split; [intros _ e -> ; reflexivity |].
    split; [intros _ cols rows ->; reflexivity |].
    destruct (execute_fetch sql limit_rows); simpl; eauto.
  - split; [reflexivity |].
    split; [discriminate |].
    split; [discriminate | eauto].
Qed.

End DbFacts.

(** The three statements of the specification, run against an engine that
    knows no table. *)
Lemma C3_run_sql_contract_witness :
  let engine := fun (_ : string) (_ : Z) =>
    @Raise (list string * list (list Db.cell)) (EngineError "no such table: t") in
  Db.run_sql engine "SELECT * FROM t LIMIT 5" 200 = Ok "SQL_ERROR: no such table: t"%string /\
  Db.run_sql engine "UPDATE t SET x=1" 200
    = Ok "SQL_ERROR: Unsafe or invalid SQL detected: UPDATE t SET x=1"%string /\
  Db.run_sql engine "SELECT * FROM t; DROP TABLE t" 200
    = Ok "SQL_ERROR: Unsafe or invalid SQL detected: SELECT * FROM t; DROP TABLE t"%string.
Proof.
  intros engine. split; [| split].
  - exact (proj1 (proj2 (proj2
      (DbFacts.C3_run_sql_contract engine "SELECT * FROM t LIMIT 5" 200)))
      eq_refl (EngineError "no such table: t") eq_refl).
  - exact (proj1 (proj2
      (DbFacts.C3_run_sql_contract engine "UPDATE t SET x=1" 200)) eq_refl).
  - exact (proj1 (proj2
      (DbFacts.C3_run_sql_contract engine "SELECT * FROM t; DROP TABLE t" 200))
      eq_refl).
Defined.

(** ** Ranking *)

Module RankFacts.
Import Memory Spec.

Local Open Scope Q_scope.

Lemma insert_desc_perm {A} (key : A -> Q) (x : A) (l : list A) :
  Permutation (insert_desc key x l) (x :: l).
Proof.
  induction l as [| y l IH]; simpl; [apply Permutation_refl |].
  destruct (Qle_bool (key y) (key x)); [apply Permutation_refl |].
  eapply Permutation_trans; [apply perm_skip, IH | apply perm_swap].
Qed.

Lemma sort_desc_perm {A} (key : A -> Q) (l : list A) :
  Permutation (sort_desc key l) l.
Proof.
  induction l as [| x l IH]; simpl; [apply Permutation_refl |].
  eapply Permutation_trans; [apply insert_desc_perm | now apply perm_skip].
Qed.

Lemma sort_desc_In {A} (key : A -> Q) (l : list A) (x : A) :
  In x (sort_desc key l) <-> In x l.
Proof.
  split; apply Permutation_in;
    [apply sort_desc_perm | apply Permutation_sym, sort_desc_perm].
Qed.

Lemma insert_desc_sorted {A} (key : A -> Q) (x : A) (l : list A) :
  StronglySorted (desc key) l -> StronglySorted (desc key) (insert_desc key x l).
Proof.
  induction 1 as [| y l Hs IH Hy]; simpl.
  - constructor; constructor.
  - destruct (Qle_bool (key y) (key x)) eqn:E.
    + apply Qle_bool_iff in E. constructor; [now constructor |].
      constructor; [exact E |].
      eapply Forall_impl; [| exact Hy].
      intros z Hz. unfold desc in *. eapply Qle_trans; eassumption.
    + constructor; [exact IH |].
      assert (key x <= key y) as Hxy.
      { destruct (Qlt_le_dec (key x) (key y)) as [Hlt | Hle].
        - now apply Qlt_le_weak.
        - apply Qle_bool_iff in Hle. congruence. }
      eapply Permutation_Forall;
        [apply Permutation_sym, insert_desc_perm |].
      now constructor.
Qed.

Lemma sort_desc_sorted {A} (key : A -> Q) (l : list A) :
  StronglySorted (desc key) (sort_desc key l).
Proof.
  induction l as [| x l IH]; simpl; [constructor | now apply insert_desc_sorted].
Qed.

Lemma firstn_In {A} (n : nat) (l : list A) (x : A) :
  In x (firstn n l) -> In x l.
Proof.
  revert n. induction l as [| y l IH]; intros [| n]; simpl; try tauto.
  intros [-> | H]; [now left | right; eapply IH, H].
Qed.

Lemma firstn_sorted {A} (R : A -> A -> Prop) (n : nat) (l : list A) :
  StronglySorted R l -> StronglySorted R (firstn n l).
Proof.
  intros H. revert n. induction H as [| x l Hs IH Hx]; intros [| n]; simpl;
    try constructor.
  - apply IH.
  - rewrite Forall_forall in *. intros y Hy. apply Hx.
    eapply firstn_In, Hy.
Qed.

Lemma slice_to_firstn {A} (xs : list A) (k : Z) :
  exists n, Py.slice_to xs k = firstn n xs.
Proof. unfold Py.slice_to. destruct (0 <=? k)%Z; eauto. Qed.

Lemma slice_to_In {A} (xs : list A) (k : Z) (x : A) :
  In x (Py.slice_to xs k) -> In x xs.
Proof.
  destruct (slice_to_firstn xs k) as [n ->]. apply firstn_In.
Qed.

Lemma slice_to_length {A} (xs : list A) (k : Z) :
  (0 <= k)%Z -> (Z.of_nat (List.length (Py.slice_to xs k)) <= k)%Z.
Proof.
  intros Hk. unfold Py.slice_to.
  destruct (Z.leb_spec 0 k) as [_ | H]; [| lia].
  rewrite length_firstn. lia.
Qed.

Lemma scored_rows_In (q : string) (min_score now : Q)
    (rows : list (Q * string)) (s2 : Q) (text : string) :
  In (s2, text) (scored_rows q min_score now rows) <->
  exists ts, In (ts, text) rows /\
    min_score <= keyword_score q text /\
    s2 = keyword_score q text + recency_boost now ts.
Proof.
  unfold scored_rows. rewrite <- list_elem_of_In, list_elem_of_omap.
  split.
  - intros ([ts text'] & Hin & Hs). apply list_elem_of_In in Hin.
    unfold score_row in Hs.
    destruct (Qle_bool min_score (keyword_score q text')) eqn:E; [| discriminate].
    injection Hs as <- <-. exists ts. apply Qle_bool_iff in E. auto.
  - intros (ts & Hin & Hle & ->). exists (ts, text).
    split; [now apply list_elem_of_In |].
    unfold score_row. apply Qle_bool_iff in Hle. now rewrite Hle.
Qed.

(** Every entry [search] returns stems from a fetched candidate whose
    lexical score reaches the threshold. *)
Lemma search_In (db : store) (user_id : Z) (query : string) (k : Z)
    (min_score : Q) (candidate_limit : Z) (now s2 : Q) (text : string) :
  In (s2, text) (search db user_id query k min_score candidate_limit now) ->
  exists ts, In (ts, text) (fetch_recent db user_id candidate_limit) /\
    min_score <= keyword_score (Py.strip query) text /\
    s2 = keyword_score (Py.strip query) text + recency_boost now ts.
Proof.
  unfold search. destruct (negb (Py.truthy (Py.strip query))); [intros [] |].
  intros H. apply slice_to_In, sort_desc_In in H.
  now apply scored_rows_In in H.
Qed.

(** C2. For a count [k] (an [int] that is not negative) [search] returns
    at most [k] entries; the lexical score of every returned entry, taken
    without the recency bonus, is at least [min_score]; and a text whose
    lexical score is below [min_score] is in no returned entry, whatever
    its recency bonus. *)
Theorem C2_search_bounded_and_eligible (db : store) (user_id : Z)
    (query : string) (k : Z) (min_score : Q) (candidate_limit : Z) (now : Q) :
  (0 <= k)%Z ->
  let result := search db user_id query k min_score candidate_limit now in
  (Z.of_nat (List.length result) <= k)%Z /\
  (forall s2 text, In (s2, text) result ->
     min_score <= keyword_score (Py.strip query) text /\
     exists ts, In (ts, text) (fetch_recent db user_id candidate_limit) /\
       s2 = keyword_score (Py.strip query) text + recency_boost now ts) /\
  (forall text, keyword_score (Py.strip query) text < min_score ->
     forall s2, ~ In (s2, text) result).
Proof.
  intros Hk result. split; [| split].
  - subst result. unfold search.
    destruct (negb (Py.truthy (Py.strip query))); [simpl; lia |].
    now apply slice_to_length.
  - intros s2 text H. apply search_In in H as (ts & Hin & Hle & Hs). eauto.
  - intros text Hlt s2 H. apply search_In in H as (ts & _ & Hle & _).
    apply (Qlt_not_le _ _ Hlt Hle).
Qed.

Lemma age_days_nonneg (now ts : Q) : 0 <= age_days now ts.
Proof. unfold age_days. apply Q.le_max_r. Qed.

Lemma age_days_antitone (now ts_old ts_new : Q) :
  ts_old <= ts_new -> age_days now ts_new <= age_days now ts_old.
Proof.
  intros H. unfold age_days. apply Q.max_le_compat_r.
  change ((now - ts_new) * (1 # 86400) <= (now - ts_old) * (1 # 86400)). lra.
Qed.

(** The bonus as one fraction. *)
Lemma recency_boost_closed (now ts : Q) :
  recency_boost now ts == 3 / (30 + age_days now ts).
Proof.
  unfold recency_boost. pose proof (age_days_nonneg now ts) as H.
  set (a := age_days now ts) in *.
  change (a / 30) with (a * (1 # 30)).
  field. split; lra.
Qed.

Lemma recency_boost_monotone (now ts_old ts_new : Q) :
  ts_old <= ts_new -> recency_boost now ts_old <= recency_boost now ts_new.
Proof.
  intros H. rewrite !recency_boost_closed.
  pose proof (age_days_nonneg now ts_new) as Hn.
  pose proof (age_days_antitone now _ _ H) as Ha.
  set (a := age_days now ts_old) in *. set (b := age_days now ts_new) in *.
  apply Qle_shift_div_l; [lra |].
  assert (3 / (30 + a) * (30 + b) == 3 * ((30 + b) / (30 + a))) as ->
    by (field; lra).
  assert ((30 + b) / (30 + a) <= 1) as Hq
    by (apply Qle_shift_div_r; lra).
  lra.
Qed.

Lemma search_sorted (db : store) (user_id : Z) (query : string) (k : Z)
    (min_score : Q) (candidate_limit : Z) (now : Q) :
  StronglySorted (desc fst)
    (search db user_id query k min_score candidate_limit now).
Proof.
  unfold search. destruct (negb (Py.truthy (Py.strip query))); [constructor |].
  destruct (slice_to_firstn
              (sort_desc fst (scored_rows (Py.strip query) min_score now
                                (fetch_recent db user_id candidate_limit))) k)
    as [n ->].
  apply firstn_sorted, sort_desc_sorted.
Qed.

(** C9. The recency bonus is [0.10 * (1 / (1 + age_days / 30))] with
    [age_days] never negative, and it does not grow with age: of two
    candidates with the same lexical score the newer one gets a final
    score at least as large, both are eligible or neither is, and since
    [search] returns its entries by non-increasing final score the newer
    one is never ranked below an older one of smaller final score. *)
Theorem C9_recency_monotone (q : string) (min_score now : Q)
    (ts_old ts_new : Q) (text_old text_new : string) :
  ts_old <= ts_new ->
  keyword_score q text_old == keyword_score q text_new ->
  recency_boost now ts_new
    == (10 # 100) * (1 / (1 + age_days now ts_new / 30)) /\
  0 <= age_days now ts_new <= age_days now ts_old /\
  recency_boost now ts_old <= recency_boost now ts_new /\
  ((score_row q min_score now (ts_old, text_old) = None /\
    score_row q min_score now (ts_new, text_new) = None) \/
   (exists s_old s_new,
      score_row q min_score now (ts_old, text_old) = Some (s_old, text_old) /\
      score_row q min_score now (ts_new, text_new) = Some (s_new, text_new) /\
      s_old <= s_new)) /\
  (forall db user_id query k candidate_limit,
     StronglySorted (desc fst)
       (search db user_id query k min_score candidate_limit now)).
Proof.
  intros Hts Hs.
  split; [reflexivity |].
  split; [split; [apply age_days_nonneg | now apply age_days_antitone] |].
  pose proof (recency_boost_monotone now _ _ Hts) as Hb.
  split; [exact Hb |].
  split; [| intros; apply search_sorted].
  unfold score_row. rewrite <- (Qleb_comp _ _ (Qeq_refl min_score) _ _ Hs).
  destruct (Qle_bool min_score (keyword_score q text_old)); [right | left; auto].
  eexists _, _. split; [reflexivity |]. split; [reflexivity |].
  rewrite Hs. lra.
Qed.

End RankFacts.

(** A pair of entries with one text, a day apart. *)
Lemma C9_recency_monotone_witness :
  (0 <= 86400)%Q /\
  (Memory.recency_boost 86400 0 <= Memory.recency_boost 86400 86400)%Q.
Proof.
  assert (0 <= 86400)%Q as H by (unfold Qle; simpl; lia).
  split; [exact H |].
  exact (proj1 (proj2 (proj2
    (RankFacts.C9_recency_monotone "pass rate" (15 # 100) 86400 0 86400
       "pass rate fell" "pass rate fell" H (Qeq_refl _))))).
Defined.

(** ** Blank and token-free queries *)

Module QueryFacts.
Import Memory Spec.

Lemma space_not_token (c : ascii) :
  Py.is_space c = true -> Py.is_token_char c = false.
Proof. destruct c as [[] [] [] [] [] [] [] []]; vm_compute; congruence. Qed.

Lemma lower_char_space (c : ascii) : Py.is_space (Py.lower_char c) = Py.is_space c.
Proof. destruct c as [[] [] [] [] [] [] [] []]; reflexivity. Qed.

Lemma lower_char_idem (c : ascii) : Py.lower_char (Py.lower_char c) = Py.lower_char c.
Proof. destruct c as [[] [] [] [] [] [] [] []]; reflexivity. Qed.

Lemma lower_idem (s : string) : Py.lower (Py.lower s) = Py.lower s.
Proof.
  induction s as [| c s IH]; simpl; [reflexivity |].
  now rewrite lower_char_idem, IH.
Qed.

Lemma lower_lstrip (s : string) : Py.lower (Py.lstrip s) = Py.lstrip (Py.lower s).
Proof.
  induction s as [| c s IH]; simpl; [reflexivity |].
  rewrite lower_char_space. now destruct (Py.is_space c).
Qed.

Lemma lower_rstrip (s : string) : Py.lower (Py.rstrip s) = Py.rstrip (Py.lower s).
Proof.
  induction s as [| c s IH]; simpl; [reflexivity |].
  rewrite <- IH, lower_char_space.
  destruct (Py.rstrip s) as [| d r]; simpl; [| reflexivity].
  now destruct (Py.is_space c).
Qed.

Lemma lower_strip (s : string) : Py.lower (Py.strip s) = Py.strip (Py.lower s).
Proof. unfold Py.strip. now rewrite lower_rstrip, lower_lstrip. Qed.

Lemma lstrip_blank (s : string) : Py.lstrip s = EmptyString <-> blank s = true.
Proof.
  induction s as [| c s IH]; simpl; [tauto |].
  destruct (Py.is_space c); simpl; [exact IH |].
  split; discriminate.
Qed.

Lemma rstrip_blank (s : string) : Py.rstrip s = EmptyString <-> blank s = true.
Proof.
  induction s as [| c s IH]; simpl; [tauto |].
  destruct (Py.rstrip s) as [| d r].
  - destruct (Py.is_space c); simpl; [tauto | split; discriminate].
  - split; [discriminate |]. intros H. apply andb_true_iff in H as [_ H].
    apply IH in H. discriminate.
Qed.

Lemma blank_lstrip (s : string) : blank (Py.lstrip s) = blank s.
Proof.
  induction s as [| c s IH]; simpl; [reflexivity |].
  destruct (Py.is_space c) eqn:E; simpl; [exact IH | now rewrite E].
Qed.

(** A query strips to the empty text exactly when it is blank. *)
Lemma strip_blank (s : string) : Py.strip s = EmptyString <-> blank s = true.
Proof. unfold Py.strip. now rewrite rstrip_blank, blank_lstrip. Qed.

Lemma findall_lstrip (s : string) :
  Re.findall_from [] (Py.lstrip s) = Re.findall_from [] s.
Proof.
  induction s as [| c s IH]; [reflexivity |].
  simpl Py.lstrip. destruct (Py.is_space c) eqn:E; [| reflexivity].
  simpl. now rewrite (space_not_token c E).
Qed.

Lemma findall_rstrip (s : string) :
  forall cur, Re.findall_from cur (Py.rstrip s) = Re.findall_from cur s.
Proof.
  induction s as [| c s IH]; intros cur; [reflexivity |].
  simpl Py.rstrip.
  destruct (Py.rstrip s) as [| d r] eqn:Er.
  - destruct (Py.is_space c) eqn:E.
    + simpl. rewrite (space_not_token c E), <- IH. reflexivity.
    + simpl. now rewrite <- !IH.
  - simpl. now rewrite <- !IH.
Qed.

Lemma findall_strip (s : string) :
  Re.findall_tokens (Py.strip s) = Re.findall_tokens s.
Proof.
  unfold Re.findall_tokens, Py.strip. now rewrite findall_rstrip, findall_lstrip.
Qed.

Lemma tokenize_strip (s : string) : tokenize (Py.strip s) = tokenize s.
Proof. unfold tokenize. now rewrite lower_strip, findall_strip. Qed.

Lemma tokenize_lower (s : string) : tokenize (Py.lower s) = tokenize s.
Proof. unfold tokenize. now rewrite lower_idem. Qed.

(** The token set [_keyword_score] builds for the query that [search]
    hands over is that of the query as typed. *)
Lemma query_tokens (query : string) :
  tokenize (Py.strip (Py.lower (Py.strip query))) = tokenize query.
Proof. now rewrite tokenize_strip, tokenize_lower, tokenize_strip. Qed.

Lemma keyword_score_no_tokens (query doc : string) :
  tokenize query = [] -> keyword_score (Py.strip query) doc = 0%Q.
Proof.
  intros H. unfold keyword_score. rewrite query_tokens, H. reflexivity.
Qed.

Lemma scored_rows_no_tokens (query : string) (min_score now : Q)
    (rows : list (Q * string)) :
  tokenize query = [] ->
  scored_rows (Py.strip query) min_score now rows =
    if Qle_bool min_score 0
    then List.map (fun row => (0 + recency_boost now (fst row), snd row)%Q) rows
    else [].
Proof.
  intros H. unfold scored_rows.
  assert (forall row, score_row (Py.strip query) min_score now row =
            if Qle_bool min_score 0
            then Some (0 + recency_boost now (fst row), snd row)%Q else None) as Hrow.
  { intros [ts text]. unfold score_row.
    now rewrite (keyword_score_no_tokens _ _ H). }
  induction rows as [| row rows IH].
  - now destruct (Qle_bool min_score 0).
  - change (omap (score_row (Py.strip query) min_score now) (row :: rows))
      with (match score_row (Py.strip query) min_score now row with
            | Some y => y :: omap (score_row (Py.strip query) min_score now) rows
            | None => omap (score_row (Py.strip query) min_score now) rows
            end).
    rewrite IH, Hrow. now destruct (Qle_bool min_score 0).
Qed.

(** C10. A query that is empty or white space only makes [search] return
    the empty list whatever the store holds and whatever [k], [min_score]
    and [candidate_limit] are. A query that is not blank but has no token
    of three or more characters is scored: every candidate gets the
    lexical score 0, so the fetched candidates are all returned, ranked
    by their recency bonus, when [min_score <= 0], and none otherwise. *)
Theorem C10_blank_versus_token_free (db : store) (user_id : Z) (query : string)
    (k : Z) (min_score : Q) (candidate_limit : Z) (now : Q) :
  (blank query = true ->
     search db user_id query k min_score candidate_limit now = []) /\
  (blank query = false -> tokenize query = [] ->
     (forall doc, keyword_score (Py.strip query) doc = 0%Q) /\
     search db user_id query k min_score candidate_limit now =
       Py.slice_to
         (sort_desc fst
            (if Qle_bool min_score 0
             then List.map
                    (fun row => (0 + recency_boost now (fst row), snd row)%Q)
                    (fetch_recent db user_id candidate_limit)
             else [])) k).
Proof.
  split.
  - intros Hb. apply strip_blank in Hb. unfold search. now rewrite Hb.
  - intros Hb Ht. split; [intros doc; now apply keyword_score_no_tokens |].
    unfold search.
    destruct (Py.strip query) as [| c s] eqn:E.
    + apply strip_blank in E. congruence.
    + simpl negb. cbv iota. rewrite <- E.
      now rewrite (scored_rows_no_tokens _ _ _ _ Ht).
Qed.

End QueryFacts.

(** One stored entry, a blank query and a two-letter query. *)
Lemma C10_blank_versus_token_free_witness :
  let db := Memory.add_memory Memory.init_db 1 "hello world" 0 in
  Memory.search db 1 "   " 5 0 300 0 = [] /\
  Memory.search db 1 "ab" 5 0 300 0
    = [((0 + Memory.recency_boost 0 0)%Q, "hello world"%string)].
Proof.
  intros db. split.
  - exact (proj1 (QueryFacts.C10_blank_versus_token_free db 1 "   " 5 0 300 0)
             eq_refl).
  - rewrite (proj2 (proj2 (QueryFacts.C10_blank_versus_token_free
                             db 1 "ab" 5 0 300 0) eq_refl eq_refl)).
    reflexivity.
Defined.

(** Three matching entries and a request for the best two. *)
Lemma C2_search_bounded_and_eligible_witness :
  let db := Memory.add_memory
              (Memory.add_memory
                 (Memory.add_memory Memory.init_db 1 "pass rate fell" 0)
                 1 "pass rate rose" 10)
              1 "pass rate flat" 20 in
  (0 <= 2)%Z /\
  (Z.of_nat (List.length (Memory.search db 1 "pass rate" 2 (15 # 100) 300 30)) <= 2)%Z.
Proof.
  intros db.
  assert (0 <= 2)%Z as H by lia.
  split; [exact H |].
  exact (proj1 (RankFacts.C2_search_bounded_and_eligible
                  db 1 "pass rate" 2 (15 # 100) 300 30 H)).
Defined.

(** ** The memory ledger *)

Module LedgerFacts.
Import Memory Spec.

Local Open Scope Q_scope.

Lemma insert_desc_split {A} (key : A -> Q) (x : A) (l : list A) :
  exists l1 l2,
    insert_desc key x l = (l1 ++ x :: l2)%list /\ l = (l1 ++ l2)%list /\
    Forall (fun y => Qle_bool (key y) (key x) = false) l1.
Proof.
  induction l as [| y l (l1 & l2 & E & El & Hl)]; simpl.
  - exists [], []. repeat split. constructor.
  - destruct (Qle_bool (key y) (key x)) eqn:Eb.
    + exists [], (y :: l). repeat split. constructor.
    + exists (y :: l1), l2. rewrite E, El. repeat split. now constructor.
Qed.

Lemma filter_length_perm {A} (p : A -> bool) (l l' : list A) :
  Permutation l l' ->
  List.length (List.filter p l) = List.length (List.filter p l').
Proof.
  induction 1 as [| x l l' _ IH | x y l | l l' l'' _ IH1 _ IH2]; simpl.
  - reflexivity.
  - destruct (p x); simpl; congruence.
  - destruct (p x), (p y); reflexivity.
  - congruence.
Qed.

Lemma filter_all {A} (p : A -> bool) (l : list A) :
  Forall (fun y => p y = true) l -> List.filter p l = l.
Proof.
  induction 1 as [| y l Hy _ IH]; simpl; [reflexivity |].
  now rewrite Hy, IH.
Qed.

Lemma firstn_reaches {A} (n : nat) (l1 l2 : list A) (x : A) :
  (List.length l1 < n)%nat -> In x (firstn n (l1 ++ x :: l2)).
Proof.
  intros H. rewrite firstn_app. apply in_or_app. right.
  destruct (n - List.length l1)%nat as [| m] eqn:E; [lia |].
  now left.
Qed.

(** The row [add_memory] writes is the first among those that are not
    later than it. *)
Lemma fetch_after_add (db : store) (user_id : Z) (text : string) (now : Q) :
  Py.strip text <> EmptyString ->
  exists l1 l2,
    List.map (fun r => (m_created_ts r, m_text r))
      (sort_desc m_created_ts
         (rev (List.filter (fun r => (m_user_id r =? user_id)%Z)
                 (memories (add_memory db user_id text now)))))
      = (l1 ++ (now, Py.strip text) :: l2)%list /\
    (List.length l1 <= later_rows db user_id now)%nat.
Proof.
  intros Hne. unfold add_memory.
  destruct (Py.strip text) as [| c s] eqn:E; [congruence |].
  simpl negb. cbv iota. cbn [memories].
  rewrite filter_app. cbn [List.filter m_user_id].
  rewrite Z.eqb_refl, rev_unit. cbn [sort_desc fold_right].
  fold (sort_desc m_created_ts
          (rev (List.filter (fun r => (m_user_id r =? user_id)%Z) (memories db)))).
  set (new := mk_memory (memories_seq db + 1) user_id now (String c s)).
  set (old := sort_desc m_created_ts
                (rev (List.filter (fun r => (m_user_id r =? user_id)%Z) (memories db)))).
  destruct (insert_desc_split m_created_ts new old) as (l1 & l2 & Ei & Eo & Hl).
  exists (List.map (fun r => (m_created_ts r, m_text r)) l1),
         (List.map (fun r => (m_created_ts r, m_text r)) l2).
  split; [rewrite Ei, map_app; reflexivity |].
  rewrite length_map. unfold later_rows.
  rewrite (filter_length_perm _ _ old).
  2:{ apply Permutation_sym. subst old.
      eapply Permutation_trans; [apply RankFacts.sort_desc_perm |].
      apply Permutation_sym, Permutation_rev. }
  rewrite Eo, filter_app, length_app.
  rewrite (filter_all _ l1); [lia |].
  eapply Forall_impl; [| exact Hl].
  intros y Hy. cbn [m_created_ts new] in Hy.
  apply Qle_bool_iff. destruct (Qlt_le_dec now (m_created_ts y)) as [Hlt | Hle].
  - now apply Qlt_le_weak.
  - apply Qle_bool_iff in Hle. congruence.
Qed.

(** C7. When the text is not empty after trimming, [add_memory] appends
    one row that holds the trimmed text and the time of the call, whatever
    the ledger already holds, and a fetch of recent candidates for that
    owner returns it, with that timestamp, as soon as the limit is
    negative or exceeds the number of the owner's entries stamped at that
    time or later. A text that trims to empty leaves the store as it was. *)
Theorem C7_add_then_fetch (db : store) (user_id : Z) (text : string)
    (now : Q) (candidate_limit : Z) :
  (Py.strip text = EmptyString -> add_memory db user_id text now = db) /\
  (Py.strip text <> EmptyString ->
     memories (add_memory db user_id text now)
       = (memories db
          ++ [mk_memory (memories_seq db + 1) user_id now (Py.strip text)])%list /\
     users (add_memory db user_id text now) = users db /\
     ((candidate_limit < 0)%Z \/
      (Z.of_nat (later_rows db user_id now) < candidate_limit)%Z ->
      In (now, Py.strip text)
         (fetch_recent (add_memory db user_id text now) user_id candidate_limit))).
Proof.
  split.
  - intros E. unfold add_memory. now rewrite E.
  - intros Hne. split; [| split].
    + unfold add_memory. destruct (Py.strip text); [congruence | reflexivity].
    + unfold add_memory. destruct (Py.strip text); [congruence | reflexivity].
    + intros Hlim. unfold fetch_recent.
      destruct (fetch_after_add db user_id text now Hne) as (l1 & l2 & -> & Hlen).
      unfold sql_limit.
      destruct (Z.ltb_spec candidate_limit 0) as [_ | Hge].
      * apply in_or_app. right. now left.
      * apply firstn_reaches. lia.
Qed.

End LedgerFacts.

(** An entry with white space around it, appended to an empty ledger. *)
Lemma C7_add_then_fetch_witness :
  Py.strip " flaky test in login " <> EmptyString /\
  In (100%Q, "flaky test in login"%string)
     (Memory.fetch_recent
        (Memory.add_memory Memory.init_db 1 " flaky test in login " 100) 1 300).
Proof.
  assert (Py.strip " flaky test in login " <> EmptyString) as H by discriminate.
  split; [exact H |].
  refine (proj2 (proj2 (proj2 (LedgerFacts.C7_add_then_fetch
            Memory.init_db 1 " flaky test in login " 100 300) H)) _).
  right. vm_compute. reflexivity.
Defined.

(** The entry that is fetched holds the trimmed text, not the text that
    was passed. *)
Lemma C7_counterexample :
  Py.strip " hi" <> EmptyString /\
  ~ exists ts, In (ts, " hi"%string)
      (Memory.fetch_recent (Memory.add_memory Memory.init_db 1 " hi" 100) 1 300).
Proof.
  split; [discriminate |].
  intros [ts H]. vm_compute in H.
  destruct H as [H | []]. discriminate.
Qed.

(** ** The credential store *)

Module CredentialFacts.
Import Memory Spec.

Section WithPlatform.

Variable pbkdf2 : string -> bytes -> bytes.
Variable b64encode : bytes -> string.
Variable b64decode : string -> bytes.

Lemma bytes_eqb_eq (a b : bytes) : bytes_eqb a b = true <-> a = b.
Proof.
  unfold bytes_eqb. destruct (list_eq_dec Byte.byte_eq_dec a b); split;
    congruence.
Qed.

Lemma taken_find (db : store) (username : string) :
  username_taken db username = false ->
  List.find (by_name username) (users db) = None.
Proof.
  unfold username_taken. fold (by_name username).
  induction (users db) as [| r l IH]; simpl; [reflexivity |].
  destruct (by_name username r); simpl; [discriminate | exact IH].
Qed.

Lemma find_taken (db : store) (username : string) (row : user_row) :
  List.find (by_name username) (users db) = Some row ->
  username_taken db username = true.
Proof.
  unfold username_taken. fold (by_name username).
  induction (users db) as [| r l IH]; simpl; [discriminate |].
  destruct (by_name username r); simpl; [reflexivity | exact IH].
Qed.

Lemma find_app_new {A} (p : A -> bool) (l : list A) (x : A) :
  List.find p l = None -> p x = true -> List.find p (l ++ [x]) = Some x.
Proof.
  induction l as [| y l IH]; simpl; intros Hn Hx.
  - now rewrite Hx.
  - destruct (p y); [discriminate | now apply IH].
Qed.

(** A password whose hash under the stored salt differs from the stored
    hash opens nothing. *)
Lemma authenticate_mismatch (db : store) (username password : string)
    (row : user_row) :
  List.find (by_name username) (users db) = Some row ->
  pbkdf2 password (b64decode (u_salt_b64 row)) <> b64decode (u_pw_hash_b64 row) ->
  authenticate pbkdf2 b64decode db username password = None.
Proof.
  intros Hf Hne. unfold authenticate. fold (by_name username). rewrite Hf.
  destruct (bytes_eqb _ _) eqn:E; [| reflexivity].
  apply bytes_eqb_eq in E. contradiction.
Qed.

Lemma authenticate_unknown (db : store) (username password : string) :
  username_taken db username = false ->
  authenticate pbkdf2 b64decode db username password = None.
Proof.
  intros H. unfold authenticate. fold (by_name username).
  now rewrite (taken_find _ _ H).
Qed.

(** C1. For a user name that exists and a password whose hash does not
    match the stored one, [create_or_auth] goes on to [create_user], and
    the INSERT is refused by the UNIQUE constraint on the user name: the
    call raises the integrity error and returns no id. *)
Theorem C1_wrong_password_raises (db : store) (username password : string)
    (salt : bytes) (now : Q) (row : user_row) :
  List.find (by_name username) (users db) = Some row ->
  pbkdf2 password (b64decode (u_salt_b64 row)) <> b64decode (u_pw_hash_b64 row) ->
  authenticate pbkdf2 b64decode db username password = None /\
  create_or_auth pbkdf2 b64encode b64decode db username password salt now
    = create_user pbkdf2 b64encode db username password salt now /\
  create_or_auth pbkdf2 b64encode b64decode db username password salt now
    = Raise (IntegrityError "UNIQUE constraint failed: users.username") /\
  (forall uid db',
     create_or_auth pbkdf2 b64encode b64decode db username password salt now
       <> Ok (uid, db')).
Proof.
  intros Hf Hne.
  pose proof (authenticate_mismatch _ _ _ _ Hf Hne) as Ha.
  assert (create_or_auth pbkdf2 b64encode b64decode db username password salt now
          = Raise (IntegrityError "UNIQUE constraint failed: users.username")) as Hr.
  { unfold create_or_auth. rewrite Ha. unfold create_user.
    now rewrite (find_taken _ _ _ Hf). }
  split; [exact Ha |].
  split; [unfold create_or_auth; now rewrite Ha |].
  split; [exact Hr |].
  intros uid db'. rewrite Hr. discriminate.
Qed.

Hypothesis b64_round_trip : forall b, b64decode (b64encode b) = b.

(** C8. Right after [create_user] has returned an id, [authenticate] with
    the same password returns that id; and for a user name that exists,
    a password whose hash does not match the stored one makes
    [authenticate] return [None], which is a value and not an exception. *)
Theorem C8_authenticate_round_trip (db : store) (username password : string)
    (salt : bytes) (now : Q) :
  (forall uid db',
     create_user pbkdf2 b64encode db username password salt now = Ok (uid, db') ->
     authenticate pbkdf2 b64decode db' username password = Some uid) /\
  (forall wrong row,
     List.find (by_name username) (users db) = Some row ->
     pbkdf2 wrong (b64decode (u_salt_b64 row)) <> b64decode (u_pw_hash_b64 row) ->
     authenticate pbkdf2 b64decode db username wrong = None) /\
  (forall uid db' wrong,
     create_user pbkdf2 b64encode db username password salt now = Ok (uid, db') ->
     pbkdf2 wrong salt <> pbkdf2 password salt ->
     authenticate pbkdf2 b64decode db' username wrong = None).
Proof.
  assert (forall uid db',
            create_user pbkdf2 b64encode db username password salt now = Ok (uid, db') ->
            List.find (by_name username) (users db')
              = Some (mk_user uid username (b64encode salt)
                        (b64encode (pbkdf2 password salt)) now)) as Hrow.
  { intros uid db'. unfold create_user.
    destruct (username_taken db username) eqn:Et; [discriminate |].
    intros H. injection H as <- <-. cbn [users].
    apply find_app_new; [now apply taken_find |].
    unfold by_name. cbn [u_username]. apply String.eqb_refl. }
  split; [| split].
  - intros uid db' Hc. unfold authenticate. fold (by_name username).
    rewrite (Hrow _ _ Hc). cbn [u_salt_b64 u_pw_hash_b64 u_id].
    rewrite !b64_round_trip.
    now rewrite (proj2 (bytes_eqb_eq _ _) eq_refl).
  - intros wrong row. apply authenticate_mismatch.
  - intros uid db' wrong Hc Hne.
    apply (authenticate_mismatch _ _ _ _ (Hrow _ _ Hc)).
    cbn [u_salt_b64 u_pw_hash_b64]. now rewrite !b64_round_trip.
Qed.

End WithPlatform.

End CredentialFacts.

(** The store that holds alice, and a second sign-in with another
    password. *)
Lemma C1_wrong_password_raises_witness :
  Memory.create_or_auth Toy.pbkdf2 Toy.b64encode Toy.b64decode
    Toy.alice_db "alice" "wrong" Toy.salt1 1
  = Raise (IntegrityError "UNIQUE constraint failed: users.username").
Proof.
  refine (proj1 (proj2 (proj2
    (CredentialFacts.C1_wrong_password_raises Toy.pbkdf2 Toy.b64encode Toy.b64decode
       Toy.alice_db "alice" "wrong" Toy.salt1 1
       (Memory.mk_user 1 "alice" (Toy.b64encode Toy.salt0)
          (Toy.b64encode (Toy.pbkdf2 "secret" Toy.salt0)) 0%Q)
       eq_refl _)))).
  vm_compute. discriminate.
Defined.

(** No id comes back from the second sign-in. *)
Lemma C1_counterexample :
  Memory.username_taken Toy.alice_db "alice" = true /\
  Memory.authenticate Toy.pbkdf2 Toy.b64decode Toy.alice_db "alice" "wrong" = None /\
  ~ exists uid db',
      Memory.create_or_auth Toy.pbkdf2 Toy.b64encode Toy.b64decode
        Toy.alice_db "alice" "wrong" Toy.salt1 1 = Ok (uid, db').
Proof.
  split; [reflexivity |]. split; [reflexivity |].
  intros (uid & db' & H). vm_compute in H. discriminate.
Qed.

(** Provisioning alice on a fresh file, then signing in. *)
Lemma C8_authenticate_round_trip_witness :
  (forall b, Toy.b64decode (Toy.b64encode b) = b) /\
  Memory.create_user Toy.pbkdf2 Toy.b64encode Memory.init_db "alice" "secret"
    Toy.salt0 0 = Ok (1%Z, Toy.alice_db) /\
  Memory.authenticate Toy.pbkdf2 Toy.b64decode Toy.alice_db "alice" "secret"
    = Some 1%Z /\
  Memory.authenticate Toy.pbkdf2 Toy.b64decode Toy.alice_db "alice" "wrong" = None.
Proof.
  assert (forall b, Toy.b64decode (Toy.b64encode b) = b) as Hb
    by apply list_byte_of_string_of_list_byte.
  split; [exact Hb |]. split; [reflexivity |].
  pose proof (CredentialFacts.C8_authenticate_round_trip
                Toy.pbkdf2 Toy.b64encode Toy.b64decode Hb
                Memory.init_db "alice" "secret" Toy.salt0 0) as (H1 & _ & H3).
  split.
  - exact (H1 1%Z Toy.alice_db eq_refl).
  - apply (H3 1%Z Toy.alice_db "wrong" eq_refl). vm_compute. discriminate.
Defined.

(** ** Metric extraction *)

Module MetricFacts.
Import Graph Spec.

Section WithParsers.

Variable json_loads : string -> Res json.
Variable float_of_str : string -> option Q.

(** One turn of the loop never raises: it stores the converted value or
    leaves the map alone. *)
Lemma store_metric_ok (metrics : gmap string Q) (k : string) (v : json) :
  store_metric float_of_str metrics (k, v) =
    Ok (match py_float float_of_str v with
        | Ok f => <[k := f]> metrics
        | Raise _ => metrics
        end).
Proof.
  unfold store_metric. cbn [fst snd].
  now destruct (py_float float_of_str v).
Qed.

Lemma store_metrics_ok (kvs : list (string * json)) :
  forall metrics : gmap string Q,
  exists metrics' : gmap string Q,
    store_metrics float_of_str metrics kvs = Ok metrics' /\
    forall key,
      metrics' !! key =
        match last_converted float_of_str key kvs with
        | Some f => Some f
        | None => metrics !! key
        end.
Proof.
  induction kvs as [| [k v] rest IH]; intros metrics.
  - exists metrics. split; reflexivity.
  - cbn [store_metrics]. rewrite store_metric_ok. cbn [bind].
    destruct (IH (match py_float float_of_str v with
                  | Ok f => <[k := f]> metrics
                  | Raise _ => metrics
                  end)) as (m' & -> & Hm').
    exists m'. split; [reflexivity |].
    intros key. rewrite Hm'. cbn [last_converted].
    destruct (last_converted float_of_str key rest); [reflexivity |].
    destruct (String.eqb_spec k key) as [-> | Hne].
    + destruct (py_float float_of_str v); [apply lookup_insert_eq | reflexivity].
    + destruct (py_float float_of_str v); [now apply lookup_insert_ne | reflexivity].
Qed.

Lemma or_empty_dict_object (kvs : list (string * json)) :
  or_empty_dict (JObj kvs) = JObj kvs.
Proof. now destruct kvs. Qed.

Lemma items_not_object (v : json) :
  (forall kvs, v <> JObj kvs) ->
  items (or_empty_dict v) = Ok [] \/ exists e, items (or_empty_dict v) = Raise e.
Proof.
  intros H. unfold or_empty_dict.
  destruct (json_truthy v); [| now left].
  destruct v; try (right; eexists; reflexivity).
  now elim (H kvs).
Qed.

(** C6. The metric extraction step always returns a map. The map is the
    one it was given when the reply is empty, when [json.loads] raises
    and when the reply is JSON but no object. For an object, every pair
    whose value [float] converts is stored under its key, a later pair
    replacing an earlier one and the value held before, and a pair whose
    value [float] rejects changes nothing and stops nothing. *)
Theorem C6_extract_metrics_total (metrics : gmap string Q) (metric_text : string) :
  (exists metrics', extract_metrics json_loads float_of_str metrics metric_text
                    = Ok metrics') /\
  (metric_text = EmptyString ->
     extract_metrics json_loads float_of_str metrics metric_text = Ok metrics) /\
  (forall e, json_loads metric_text = Raise e ->
     extract_metrics json_loads float_of_str metrics metric_text = Ok metrics) /\
  (forall v, json_loads metric_text = Ok v -> (forall kvs, v <> JObj kvs) ->
     extract_metrics json_loads float_of_str metrics metric_text = Ok metrics) /\
  (forall kvs, metric_text <> EmptyString ->
     json_loads metric_text = Ok (JObj kvs) ->
     exists metrics',
       extract_metrics json_loads float_of_str metrics metric_text = Ok metrics' /\
       forall key,
         metrics' !! key =
           match last_converted float_of_str key kvs with
           | Some f => Some f
           | None => metrics !! key
           end).
Proof.
  assert (forall kvs, metric_text <> EmptyString ->
            json_loads metric_text = Ok (JObj kvs) ->
            exists metrics',
              extract_metrics json_loads float_of_str metrics metric_text = Ok metrics' /\
              forall key,
                metrics' !! key =
                  match last_converted float_of_str key kvs with
                  | Some f => Some f
                  | None => metrics !! key
                  end) as Hobj.
  { intros kvs Hne Hl. unfold extract_metrics.
    destruct metric_text as [| c s]; [congruence |]. cbn [Py.truthy].
    rewrite Hl. cbn [bind]. rewrite or_empty_dict_object. cbn [items bind].
    destruct (store_metrics_ok kvs metrics) as (m' & -> & Hm').
    exists m'. split; [reflexivity | exact Hm']. }
  assert (forall v, json_loads metric_text = Ok v -> (forall kvs, v <> JObj kvs) ->
            extract_metrics json_loads float_of_str metrics metric_text = Ok metrics)
    as Hother.
  { intros v Hl Hv. unfold extract_metrics.
    destruct (Py.truthy metric_text); [rewrite Hl |]; cbn [bind].
    - destruct (items_not_object v Hv) as [-> | [e ->]]; reflexivity.
    - reflexivity. }
  assert (forall e, json_loads metric_text = Raise e ->
            extract_metrics json_loads float_of_str metrics metric_text = Ok metrics)
    as Hraise.
  { intros e Hl. unfold extract_metrics.
    destruct (Py.truthy metric_text); [rewrite Hl |]; reflexivity. }
  split; [| split; [| split; [| split]]]; try assumption.
  - destruct metric_text as [| c s] eqn:Et; [eexists; reflexivity |].
    rewrite <- Et in *.
    destruct (json_loads metric_text) as [v | e] eqn:El.
    + destruct v; try (eexists; eapply Hother; [reflexivity | discriminate]).
      destruct (Hobj kvs) as (m' & -> & _); [congruence | reflexivity | eauto].
    + eexists. now apply (Hraise e).
  - intros ->. reflexivity.
Qed.

End WithParsers.

End MetricFacts.

(** A reply with a number, a null, a boolean and a numeric string, folded
    into a map that already has a count of runs. *)
Lemma C6_extract_metrics_total_witness :
  exists metrics' : gmap string Q,
    Graph.extract_metrics Toy.json_loads Toy.float_of_str
      {[ "runs"%string := 1%Q ]} "object reply" = Ok metrics' /\
    metrics' !! "pass_rate"%string = Some (82 # 100)%Q /\
    metrics' !! "runs"%string = Some 7%Q /\
    metrics' !! "owner"%string = None.
Proof.
  destruct (proj2 (proj2 (proj2 (proj2
              (MetricFacts.C6_extract_metrics_total Toy.json_loads Toy.float_of_str
                 {[ "runs"%string := 1%Q ]} "object reply"))))
              [("pass_rate"%string, Graph.JFloat (82 # 100)%Q);
               ("owner"%string, Graph.JNull);
               ("flaky"%string, Graph.JBool true);
               ("runs"%string, Graph.JStr "7")]
              ltac:(discriminate) eq_refl) as (m' & He & Hk).
  exists m'. split; [exact He |].
  rewrite !Hk. repeat split.
Defined.

(** A boolean is no number, and yet it is stored, as 1. *)
Lemma C6_counterexample :
  Spec.json_number (Graph.JBool true) = false /\
  ~ (forall metrics' : gmap string Q,
       Graph.extract_metrics Toy.json_loads Toy.float_of_str ∅ "object reply"
         = Ok metrics' ->
       metrics' !! "flaky"%string = (∅ : gmap string Q) !! "flaky"%string).
Proof.
  split; [reflexivity |].
  intros H.
  assert (exists m' : gmap string Q,
            Graph.extract_metrics Toy.json_loads Toy.float_of_str ∅ "object reply"
              = Ok m' /\ m' !! "flaky"%string = Some 1%Q) as (m' & He & Hf).
  { eexists. split; [reflexivity |]. vm_compute. reflexivity. }
  specialize (H m' He). rewrite Hf in H. discriminate.
Qed.

(** ** The ranker on a small ledger *)

Example keyword_score_phrase :
  (Memory.keyword_score "pass rate" "Pass rate fell" == 125 # 100)%Q.
Proof. reflexivity. Qed.

Example keyword_score_partial :
  (Memory.keyword_score "pass rate trends" "the rate of pass" == 2 # 3)%Q.
Proof. reflexivity. Qed.

(** Two entries of user 1 and one of user 2: the newer entry of user 1
    comes first, the entry of user 2 is not seen. *)
Example search_ranks_newer_first :
  let db := Memory.add_memory
              (Memory.add_memory
                 (Memory.add_memory Memory.init_db 1 "pass rate fell" 0)
                 1 "pass rate rose" 10)
              2 "pass rate flat" 20 in
  List.map snd (Memory.search db 1 "pass rate" 5 (15 # 100) 300 30)
    = ["pass rate rose"; "pass rate fell"]%string.
Proof. vm_compute. reflexivity. Qed.

(** * Further properties of the code *)

(** ** Trimming and lower-casing *)

Module StringFacts.
Import Notions.

Lemma lstrip_clean (s : string) : starts_clean (Py.lstrip s) = true.
Proof.
  induction s as [| c s IH]; simpl; [reflexivity |].
  destruct (Py.is_space c) eqn:E; [exact IH | simpl; now rewrite E].
Qed.

Lemma lstrip_fixed (s : string) : starts_clean s = true -> Py.lstrip s = s.
Proof.
  destruct s as [| c s]; simpl; [reflexivity |].
  now destruct (Py.is_space c).
Qed.

Lemma rstrip_clean (s : string) :
  starts_clean s = true -> starts_clean (Py.rstrip s) = true.
Proof.
  destruct s as [| c s]; simpl; [reflexivity |].
  destruct (Py.is_space c) eqn:E; [discriminate |]. intros _.
  destruct (Py.rstrip s); simpl; now rewrite E.
Qed.

Lemma rstrip_idem (s : string) : Py.rstrip (Py.rstrip s) = Py.rstrip s.
Proof.
  induction s as [| c s IH]; simpl; [reflexivity |].
  destruct (Py.rstrip s) as [| d r] eqn:E.
  - destruct (Py.is_space c) eqn:Ec; simpl; [reflexivity | now rewrite Ec].
  - change (Py.rstrip (String c (String d r))) with
      (match Py.rstrip (String d r) with
       | EmptyString => if Py.is_space c then EmptyString else String c EmptyString
       | r' => String c r'
       end).
    now rewrite IH.
Qed.

Lemma strip_lstrip (s : string) : Py.lstrip (Py.strip s) = Py.strip s.
Proof. unfold Py.strip. apply lstrip_fixed, rstrip_clean, lstrip_clean. Qed.

Lemma strip_strip (s : string) : Py.strip (Py.strip s) = Py.strip s.
Proof.
  unfold Py.strip at 1. rewrite strip_lstrip. unfold Py.strip. apply rstrip_idem.
Qed.

Lemma strip_rstrip (s : string) : Py.rstrip (Py.strip s) = Py.strip s.
Proof. unfold Py.strip. apply rstrip_idem. Qed.

End StringFacts.

(** ** Tokens and the lexical score *)

Module ScoreFacts.
Import Memory Notions.

Local Open Scope Q_scope.




Lemma ratio_bounds (a b : nat) :
  (a <= b)%nat ->
  0 <= inject_Z (Z.of_nat a) / inject_Z (Z.max (Z.of_nat b) 1) <= 1.
Proof.
  intros H.
  assert (0 < inject_Z (Z.max (Z.of_nat b) 1)) as Hpos.
  { change 0 with (inject_Z 0). rewrite <- Zlt_Qlt. lia. }
  assert (0 <= inject_Z (Z.of_nat a)) as Ha.
  { change 0 with (inject_Z 0). rewrite <- Zle_Qle. lia. }
  assert (inject_Z (Z.of_nat a) <= inject_Z (Z.max (Z.of_nat b) 1)) as Hab.
  { rewrite <- Zle_Qle. lia. }
  split.
  - apply Qle_shift_div_l; [exact Hpos | lra].
  - apply Qle_shift_div_r; [exact Hpos | lra].
Qed.

Lemma keyword_score_range (query doc : string) :
  0 <= keyword_score query doc <= 125 # 100.
Proof.
  unfold keyword_score.
  destruct (bool_decide _); [split; [apply Qle_refl | discriminate] |].
  set (q := list_to_set (tokenize (Py.strip (Py.lower query))) : gset string).
  set (d := list_to_set (tokenize (Py.lower doc)) : gset string).
  assert (size (q ∩ d) <= size q)%nat as Hs
    by apply subseteq_size, intersection_subseteq_l.
  pose proof (ratio_bounds _ _ Hs) as [H0 H1].
  destruct (_ && _)%bool; split; lra.
Qed.

(** X3. The lexical score lies between 0 and 1.25: the overlap ratio is at
    most 1 and the phrase bonus adds 0.25; and it is 0 for a document
    without tokens unless the query has no token either. *)
Theorem keyword_score_bounds (query doc : string) :
  0 <= keyword_score query doc <= 125 # 100 /\
  (tokenize doc = [] -> keyword_score query doc <= 25 # 100).
Proof.
  split; [apply keyword_score_range |].
  intros Hd. unfold keyword_score.
  destruct (bool_decide _); [discriminate |].
  rewrite QueryFacts.tokenize_lower, Hd.
  replace (size (_ ∩ list_to_set [])) with 0%nat.
  - destruct (_ && _)%bool; unfold Qdiv; rewrite Qmult_0_l; discriminate.
  - symmetry. apply size_empty_iff. apply elem_of_equiv_empty. intros x Hx.
    apply elem_of_intersection in Hx as [_ Hx]. now apply elem_of_empty in Hx.
Qed.

(** X4. The lexical score does not see the letter case of the query or of
    the document, nor white space around the query. *)
Theorem keyword_score_normalizes (query doc : string) :
  keyword_score (Py.lower query) doc = keyword_score query doc /\
  keyword_score query (Py.lower doc) = keyword_score query doc /\
  keyword_score (Py.strip query) doc = keyword_score query doc.
Proof.
  unfold keyword_score. split; [| split].
  - now rewrite QueryFacts.lower_idem.
  - now rewrite QueryFacts.lower_idem.
  - now rewrite QueryFacts.lower_strip, StringFacts.strip_strip.
Qed.

End ScoreFacts.


(** ** Invariants of the store *)

Module StoreFacts.
Import Memory Notions Spec.

Lemma ids_ok_snoc (ids : list Z) (seq : Z) :
  ids_ok ids seq -> ids_ok (ids ++ [seq + 1]%Z) (seq + 1).
Proof.
  intros (H0 & Hs & Hb). split; [lia |]. split.
  - induction ids as [| i ids IH]; simpl.
    + constructor; constructor.
    + apply StronglySorted_inv in Hs as [Hs Hi].
      apply Forall_cons_iff in Hb as [Hi0 Hb].
      constructor; [now apply IH |].
      apply Forall_app. split; [exact Hi |].
      constructor; [lia | constructor].
  - apply Forall_app. split.
    + eapply Forall_impl; [| exact Hb]. simpl. intros; lia.
    + constructor; [lia | constructor].
Qed.

Lemma taken_iff (db : store) (username : string) :
  username_taken db username = true <->
  In username (List.map u_username (users db)).
Proof.
  unfold username_taken. rewrite existsb_exists, in_map_iff.
  split; intros (r & H1 & H2).
  - exists r. apply String.eqb_eq in H2. auto.
  - exists r. split; [exact H2 |]. now apply String.eqb_eq.
Qed.

Lemma NoDup_snoc {A} (l : list A) (x : A) :
  NoDup l -> ~ In x l -> NoDup (l ++ [x]).
Proof.
  intros Hl Hx. apply NoDup_app.
  - exact Hl.
  - constructor; [intros [] | constructor].
  - intros y Hy [<- | []]. contradiction.
Qed.

Lemma text_ok_strip (text : string) :
  Py.strip text <> EmptyString -> text_ok (Py.strip text).
Proof. intros H. split; [exact H | apply StringFacts.strip_strip]. Qed.

Lemma create_user_ok (pbkdf2 : string -> bytes -> bytes) (b64encode : bytes -> string)
    (db db' : store) (username password : string) (salt : bytes) (now : Q) (uid : Z) :
  store_ok db ->
  create_user pbkdf2 b64encode db username password salt now = Ok (uid, db') ->
  store_ok db' /\ uid = (users_seq db + 1)%Z /\
  ~ In uid (List.map u_id (users db)) /\
  memories db' = memories db.
Proof.
  intros (Hn & Hu & Hm & Ht). unfold create_user.
  destruct (username_taken db username) eqn:E; [discriminate |].
  intros H. injection H as <- <-. unfold store_ok.
  cbn [users users_seq memories memories_seq].
  split; [| split; [reflexivity | split; [| reflexivity]]].
  - split; [| split; [| split]]; try assumption.
    + rewrite map_app. cbn [List.map u_username].
      apply NoDup_snoc; [exact Hn |].
      intros Hin. apply taken_iff in Hin. congruence.
    + rewrite map_app. exact (ids_ok_snoc _ _ Hu).
  - destruct Hu as (_ & _ & Hb). intros Hin.
    rewrite Forall_forall in Hb. apply Hb in Hin. lia.
Qed.

Lemma add_memory_ok (db : store) (user_id : Z) (text : string) (now : Q) :
  store_ok db -> store_ok (add_memory db user_id text now).
Proof.
  intros (Hn & Hu & Hm & Ht). unfold add_memory.
  destruct (Py.truthy (Py.strip text)) eqn:E; simpl negb; cbv iota;
    [| split; [| split; [| split]]; assumption].
  unfold store_ok. cbn [users users_seq memories memories_seq].
  split; [| split; [| split]]; try assumption.
  - rewrite map_app. exact (ids_ok_snoc _ _ Hm).
  - apply Forall_app. split; [exact Ht |].
    constructor; [| constructor]. cbn [m_text]. apply text_ok_strip.
    now destruct (Py.strip text).
Qed.

(** X5. A fresh file satisfies the store invariant, and [create_user],
    [create_or_auth] and [add_memory] keep it: user names stay unique,
    row ids stay positive, increasing and below the AUTOINCREMENT
    counter, and every stored memory text is non-empty and trimmed. An
    id that [create_user] returns was never used before. *)
Theorem store_invariant (pbkdf2 : string -> bytes -> bytes)
    (b64encode : bytes -> string) (b64decode : string -> bytes)
    (db : store) (username password : string) (salt : bytes) (now : Q)
    (user_id : Z) (text : string) :
  store_ok init_db /\
  (store_ok db ->
     (forall uid db',
        create_user pbkdf2 b64encode db username password salt now = Ok (uid, db') ->
        store_ok db' /\ ~ In uid (List.map u_id (users db))) /\
     (forall uid db',
        create_or_auth pbkdf2 b64encode b64decode db username password salt now
          = Ok (uid, db') ->
        store_ok db') /\
     store_ok (add_memory db user_id text now)).
Proof.
  split.
  - repeat split; simpl; try lia; constructor.
  - intros Hok. split; [| split].
    + intros uid db' H.
      destruct (create_user_ok _ _ _ _ _ _ _ _ _ Hok H) as (H1 & _ & H3 & _).
      now split.
    + intros uid db'. unfold create_or_auth.
      destruct (authenticate pbkdf2 b64decode db username password).
      * intros H. injection H as <- <-. exact Hok.
      * intros H. now apply (create_user_ok _ _ _ _ _ _ _ _ _ Hok H).
    + now apply add_memory_ok.
Qed.

End StoreFacts.

(** The store that holds alice satisfies the invariant, and keeps it when
    a memory is added. *)
Lemma store_invariant_witness :
  Notions.store_ok Toy.alice_db /\
  Notions.store_ok (Memory.add_memory Toy.alice_db 1 " flaky login test " 1).
Proof.
  assert (Notions.store_ok Toy.alice_db) as H.
  { unfold Notions.store_ok, Notions.ids_ok. simpl.
    repeat split; try lia; repeat constructor; try lia. intros []. }
  split; [exact H |].
  exact (proj2 (proj2 (proj2
    (StoreFacts.store_invariant Toy.pbkdf2 Toy.b64encode Toy.b64decode
       Toy.alice_db "alice" "secret" Toy.salt1 1 1 " flaky login test ") H))).
Defined.

(** ** More on the credential store *)

Module LoginFacts.
Import Memory Notions Spec.

Section WithPlatform.

Variable pbkdf2 : string -> bytes -> bytes.
Variable b64encode : bytes -> string.
Variable b64decode : string -> bytes.

Lemma find_some_in {A} (p : A -> bool) (l : list A) (x : A) :
  List.find p l = Some x -> In x l /\ p x = true.
Proof. apply find_some. Qed.

(** X6. [authenticate] returns an id only when table [users] holds a row
    with that id under the given user name and the hash of the given
    password with the row's salt is the row's hash; for a user name that
    is not stored it returns [None]. *)
Theorem authenticate_sound (db : store) (username password : string) :
  (forall uid,
     authenticate pbkdf2 b64decode db username password = Some uid ->
     exists row, In row (users db) /\ u_username row = username /\
       u_id row = uid /\
       pbkdf2 password (b64decode (u_salt_b64 row)) = b64decode (u_pw_hash_b64 row)) /\
  (~ In username (List.map u_username (users db)) ->
     authenticate pbkdf2 b64decode db username password = None).
Proof.
  split.
  - intros uid. unfold authenticate.
    destruct (List.find _ (users db)) as [row |] eqn:Ef; [| discriminate].
    apply find_some in Ef as [Hin Hn]. apply String.eqb_eq in Hn.
    destruct (bytes_eqb _ _) eqn:Eb; [| discriminate].
    intros H. injection H as <-. exists row.
    apply CredentialFacts.bytes_eqb_eq in Eb. auto.
  - intros Hn. apply CredentialFacts.authenticate_unknown.
    destruct (username_taken db username) eqn:E; [| reflexivity].
    apply StoreFacts.taken_iff in E. contradiction.
Qed.

Lemma find_app_old {A} (p : A -> bool) (l : list A) (x : A) :
  p x = false -> List.find p (l ++ [x]) = List.find p l.
Proof.
  intros Hx. induction l as [| y l IH]; simpl; [now rewrite Hx |].
  now destruct (p y).
Qed.

(** X7. Provisioning one user name leaves every other user name as it
    was: [authenticate] answers the same for it before and after, and
    the memories are untouched. *)
Theorem create_user_frame (db db' : store) (username password : string)
    (salt : bytes) (now : Q) (uid : Z) (other other_password : string) :
  create_user pbkdf2 b64encode db username password salt now = Ok (uid, db') ->
  other <> username ->
  authenticate pbkdf2 b64decode db' other other_password
    = authenticate pbkdf2 b64decode db other other_password /\
  memories db' = memories db.
Proof.
  unfold create_user. destruct (username_taken db username); [discriminate |].
  intros H Hne. injection H as <- <-. split; [| reflexivity].
  unfold authenticate. cbn [users]. rewrite find_app_old; [reflexivity |].
  cbn [u_username]. apply String.eqb_neq. congruence.
Qed.

Hypothesis b64_round_trip : forall b, b64decode (b64encode b) = b.

Lemma authenticate_after_create (db db' : store) (username password : string)
    (salt : bytes) (now : Q) (uid : Z) :
  create_user pbkdf2 b64encode db username password salt now = Ok (uid, db') ->
  authenticate pbkdf2 b64decode db' username password = Some uid.
Proof.
  unfold create_user. destruct (username_taken db username) eqn:Et; [discriminate |].
  intros H. injection H as <- <-. unfold authenticate. cbn [users].
  fold (by_name username).
  rewrite (CredentialFacts.find_app_new (by_name username)).
  - cbn [u_salt_b64 u_pw_hash_b64 u_id]. rewrite !b64_round_trip.
    now rewrite (proj2 (CredentialFacts.bytes_eqb_eq _ _) eq_refl).
  - now apply CredentialFacts.taken_find.
  - unfold by_name. cbn [u_username]. apply String.eqb_refl.
Qed.

(** X8. Whenever [create_or_auth] returns an id, [authenticate] with the
    same user name and password returns that id on the resulting store,
    and a second [create_or_auth] with them returns the same id and
    writes nothing: signing in again is idempotent. *)
Theorem create_or_auth_idempotent (db db' : store) (username password : string)
    (salt salt' : bytes) (now now' : Q) (uid : Z) :
  create_or_auth pbkdf2 b64encode b64decode db username password salt now
    = Ok (uid, db') ->
  authenticate pbkdf2 b64decode db' username password = Some uid /\
  create_or_auth pbkdf2 b64encode b64decode db' username password salt' now'
    = Ok (uid, db').
Proof.
  intros H.
  assert (authenticate pbkdf2 b64decode db' username password = Some uid) as Ha.
  { unfold create_or_auth in H.
    destruct (authenticate pbkdf2 b64decode db username password) as [u |] eqn:E.
    - injection H as <- <-. exact E.
    - now apply (authenticate_after_create _ _ _ _ _ _ _ H). }
  split; [exact Ha |]. unfold create_or_auth. now rewrite Ha.
Qed.

End WithPlatform.

End LoginFacts.

(** Alice signs in on a fresh file, and then once more. *)
Lemma create_or_auth_idempotent_witness :
  Memory.create_or_auth Toy.pbkdf2 Toy.b64encode Toy.b64decode
    Memory.init_db "alice" "secret" Toy.salt0 0 = Ok (1%Z, Toy.alice_db) /\
  Memory.create_or_auth Toy.pbkdf2 Toy.b64encode Toy.b64decode
    Toy.alice_db "alice" "secret" Toy.salt1 9 = Ok (1%Z, Toy.alice_db).
Proof.
  split; [reflexivity |].
  exact (proj2 (LoginFacts.create_or_auth_idempotent
                  Toy.pbkdf2 Toy.b64encode Toy.b64decode
                  list_byte_of_string_of_list_byte
                  Memory.init_db Toy.alice_db "alice" "secret"
                  Toy.salt0 Toy.salt1 0 9 1 eq_refl)).
Defined.

(** Alice is provisioned; bob, who is not stored, stays unknown. *)
Lemma create_user_frame_witness :
  Memory.authenticate Toy.pbkdf2 Toy.b64decode Toy.alice_db "bob" "secret"
  = Memory.authenticate Toy.pbkdf2 Toy.b64decode Memory.init_db "bob" "secret".
Proof.
  refine (proj1 (LoginFacts.create_user_frame Toy.pbkdf2 Toy.b64encode Toy.b64decode
                   Memory.init_db Toy.alice_db "alice" "secret" Toy.salt0 0 1
                   "bob" "secret" eq_refl _)).
  discriminate.
Defined.

(** Alice's right password yields the id of her row. *)
Lemma authenticate_sound_witness :
  exists row, In row (Memory.users Toy.alice_db) /\
    Memory.u_username row = "alice"%string /\ Memory.u_id row = 1%Z /\
    Toy.pbkdf2 "secret" (Toy.b64decode (Memory.u_salt_b64 row))
      = Toy.b64decode (Memory.u_pw_hash_b64 row).
Proof.
  exact (proj1 (LoginFacts.authenticate_sound Toy.pbkdf2 Toy.b64decode
                  Toy.alice_db "alice" "secret") 1%Z eq_refl).
Defined.

(** ** More on the ledger and the ranker *)

Module RecallFacts.
Import Memory Notions Spec.

Local Open Scope Q_scope.

Lemma add_memory_other_rows (db : store) (user_id other : Z) (text : string) (now : Q) :
  other <> user_id ->
  rows_of (add_memory db user_id text now) other = rows_of db other.
Proof.
  intros Hne. unfold rows_of, add_memory.
  destruct (negb (Py.truthy (Py.strip text))); [reflexivity |].
  cbn [memories]. rewrite filter_app. cbn [List.filter m_user_id].
  destruct (Z.eqb_spec user_id other) as [E | _]; [congruence |].
  apply app_nil_r.
Qed.

(** X1. White space around a text or a query is not seen: [add_memory]
    stores the same row for the text and for its trimmed form, which the
    stored text is, and [search] answers alike for a query and its
    trimmed form. *)
Theorem store_and_search_trim (db : store) (user_id : Z) (text query : string)
    (now : Q) (k : Z) (min_score : Q) (candidate_limit : Z) :
  add_memory db user_id (Py.strip text) now = add_memory db user_id text now /\
  search db user_id (Py.strip query) k min_score candidate_limit now
    = search db user_id query k min_score candidate_limit now /\
  Forall (fun r => In r (memories db) \/
                   (m_text r = Py.strip text /\ Py.lstrip (m_text r) = m_text r /\
                    Py.rstrip (m_text r) = m_text r))
         (memories (add_memory db user_id text now)).
Proof.
  split; [| split].
  - unfold add_memory. now rewrite StringFacts.strip_strip.
  - unfold search. now rewrite StringFacts.strip_strip.
  - unfold add_memory. destruct (negb _).
    + apply Forall_forall. auto.
    + cbn [memories]. apply Forall_app. split; [apply Forall_forall; auto |].
      constructor; [| constructor]. right. cbn [m_text].
      split; [reflexivity |].
      split; [apply StringFacts.strip_lstrip | apply StringFacts.strip_rstrip].
Qed.

(** X9. Memories are scoped to their owner: after [add_memory] for one
    user, [search] for any other user returns what it returned before,
    for every query and every setting. *)
Theorem add_memory_isolated (db : store) (user_id other : Z) (text : string)
    (now : Q) (query : string) (k : Z) (min_score : Q) (candidate_limit : Z)
    (now' : Q) :
  other <> user_id ->
  fetch_recent (add_memory db user_id text now) other candidate_limit
    = fetch_recent db other candidate_limit /\
  search (add_memory db user_id text now) other query k min_score candidate_limit now'
    = search db other query k min_score candidate_limit now'.
Proof.
  intros Hne.
  assert (fetch_recent (add_memory db user_id text now) other candidate_limit
          = fetch_recent db other candidate_limit) as Hf.
  { unfold fetch_recent. fold (rows_of (add_memory db user_id text now) other).
    fold (rows_of db other). now rewrite add_memory_other_rows. }
  split; [exact Hf |]. unfold search. now rewrite Hf.
Qed.

Lemma map_sorted (l : list memory_row) :
  StronglySorted (desc m_created_ts) l ->
  StronglySorted (desc fst) (List.map (fun r => (m_created_ts r, m_text r)) l).
Proof.
  induction 1 as [| r l _ IH Hr]; simpl; constructor; [exact IH |].
  apply Forall_map. eapply Forall_impl; [| exact Hr]. now intros r'.
Qed.

Lemma sql_limit_firstn {A} (n : Z) (l : list A) :
  exists m, sql_limit n l = firstn m l.
Proof.
  unfold sql_limit. destruct (n <? 0)%Z; [| eauto].
  exists (List.length l). symmetry. apply firstn_all.
Qed.

(** X10. The candidate fetch returns rows of the given owner only, newest
    first, and no more than a limit that is not negative; with a negative
    limit, or one that is not below the number of the owner's rows, it
    returns every row of the owner. *)
Theorem fetch_recent_spec (db : store) (user_id : Z) (candidate_limit : Z) :
  (forall ts text, In (ts, text) (fetch_recent db user_id candidate_limit) ->
     exists r, In r (memories db) /\ m_user_id r = user_id /\
       m_created_ts r = ts /\ m_text r = text) /\
  StronglySorted (desc fst) (fetch_recent db user_id candidate_limit) /\
  ((0 <= candidate_limit)%Z ->
     (Z.of_nat (List.length (fetch_recent db user_id candidate_limit))
        <= candidate_limit)%Z) /\
  ((candidate_limit < 0)%Z \/
   (Z.of_nat (List.length (rows_of db user_id)) <= candidate_limit)%Z ->
     forall r, In r (memories db) -> m_user_id r = user_id ->
       In (m_created_ts r, m_text r) (fetch_recent db user_id candidate_limit)).
Proof.
  unfold fetch_recent. fold (rows_of db user_id).
  set (sorted := sort_desc m_created_ts (rev (rows_of db user_id))).
  assert (forall r, In r sorted <-> In r (memories db) /\ m_user_id r = user_id) as Hin.
  { intros r. subst sorted. rewrite RankFacts.sort_desc_In, <- in_rev.
    unfold rows_of. rewrite filter_In. now rewrite Z.eqb_eq. }
  split; [| split; [| split]].
  - intros ts text H.
    destruct (sql_limit_firstn candidate_limit
                (List.map (fun r => (m_created_ts r, m_text r)) sorted)) as [m Hm].
    rewrite Hm in H. apply RankFacts.firstn_In in H.
    apply in_map_iff in H as (r & E & Hr). injection E as <- <-.
    apply Hin in Hr as [H1 H2]. eauto.
  - destruct (sql_limit_firstn candidate_limit
                (List.map (fun r => (m_created_ts r, m_text r)) sorted)) as [m ->].
    apply RankFacts.firstn_sorted, map_sorted, RankFacts.sort_desc_sorted.
  - intros Hl. unfold sql_limit.
    destruct (Z.ltb_spec candidate_limit 0) as [? | _]; [lia |].
    rewrite length_firstn. lia.
  - intros Hl r Hr Hu.
    assert (sql_limit candidate_limit
              (List.map (fun r => (m_created_ts r, m_text r)) sorted)
            = List.map (fun r => (m_created_ts r, m_text r)) sorted) as ->.
    { unfold sql_limit. destruct (Z.ltb_spec candidate_limit 0) as [_ | Hge];
        [reflexivity |].
      apply firstn_all2. rewrite length_map. subst sorted.
      rewrite (Permutation_length (RankFacts.sort_desc_perm _ _)), length_rev.
      lia. }
    apply in_map_iff. exists r. split; [reflexivity |]. now apply Hin.
Qed.

Lemma recency_boost_range (now ts : Q) :
  0 < recency_boost now ts <= 1 # 10.
Proof.
  rewrite RankFacts.recency_boost_closed.
  pose proof (RankFacts.age_days_nonneg now ts) as H.
  set (a := age_days now ts) in *. split.
  - apply Qlt_shift_div_l; lra.
  - apply Qle_shift_div_r; lra.
Qed.

(** X11. The final score of a returned entry exceeds its lexical score by
    the recency bonus, which is positive and at most 0.10: the score lies
    above [min_score] and is at most 1.35. *)
Theorem search_score_range (db : store) (user_id : Z) (query : string) (k : Z)
    (min_score : Q) (candidate_limit : Z) (now s2 : Q) (text : string) :
  In (s2, text) (search db user_id query k min_score candidate_limit now) ->
  keyword_score (Py.strip query) text < s2 /\
  s2 <= keyword_score (Py.strip query) text + (1 # 10) /\
  min_score < s2 /\ s2 <= 135 # 100.
Proof.
  intros H. apply RankFacts.search_In in H as (ts & _ & Hle & ->).
  pose proof (recency_boost_range now ts) as [H0 H1].
  pose proof (ScoreFacts.keyword_score_range (Py.strip query) text) as [_ H2].
  repeat split; lra.
Qed.

(** X12. Asking for fewer entries yields a prefix of what asking for more
    yields: for [0 <= k1 <= k2] the result for [k1] is the first [k1]
    entries of the result for [k2]. *)
Theorem search_prefix (db : store) (user_id : Z) (query : string) (k1 k2 : Z)
    (min_score : Q) (candidate_limit : Z) (now : Q) :
  (0 <= k1 <= k2)%Z ->
  search db user_id query k1 min_score candidate_limit now
    = firstn (Z.to_nat k1)
        (search db user_id query k2 min_score candidate_limit now).
Proof.
  intros Hk. unfold search.
  destruct (negb (Py.truthy (Py.strip query))); [now rewrite firstn_nil |].
  unfold Py.slice_to.
  destruct (Z.leb_spec 0 k1) as [_ | ?]; [| lia].
  destruct (Z.leb_spec 0 k2) as [_ | ?]; [| lia].
  rewrite firstn_firstn. f_equal. lia.
Qed.

End RecallFacts.

(** Two users, a memory for the first: the second sees nothing new. *)
Lemma add_memory_isolated_witness :
  Memory.search (Memory.add_memory Memory.init_db 1 "pass rate fell" 0) 2
    "pass rate" 5 (15 # 100) 300 10
  = Memory.search Memory.init_db 2 "pass rate" 5 (15 # 100) 300 10.
Proof.
  refine (proj2 (RecallFacts.add_memory_isolated Memory.init_db 1 2
                   "pass rate fell" 0 "pass rate" 5 (15 # 100) 300 10 _)).
  discriminate.
Defined.

(** One stored row, fetched under the default limit. *)
Lemma fetch_recent_spec_witness :
  In (0%Q, "pass rate fell"%string)
     (Memory.fetch_recent (Memory.add_memory Memory.init_db 1 "pass rate fell" 0) 1 300).
Proof.
  refine (proj2 (proj2 (proj2
    (RecallFacts.fetch_recent_spec
       (Memory.add_memory Memory.init_db 1 "pass rate fell" 0) 1 300))) _
    (Memory.mk_memory 1 1 0 "pass rate fell") _ eq_refl).
  - right. vm_compute. discriminate.
  - left. reflexivity.
Defined.

(** The one entry a search returns, and its score. *)
Lemma search_score_range_witness :
  let db := Memory.add_memory Memory.init_db 1 "pass rate fell" 0 in
  let s2 := (Memory.keyword_score "pass rate" "pass rate fell"
             + Memory.recency_boost 10 0)%Q in
  In (s2, "pass rate fell"%string)
     (Memory.search db 1 "pass rate" 5 (15 # 100) 300 10) /\
  (s2 <= 135 # 100)%Q.
Proof.
  intros db s2.
  assert (In (s2, "pass rate fell"%string)
            (Memory.search db 1 "pass rate" 5 (15 # 100) 300 10)) as H
    by (vm_compute; left; reflexivity).
  split; [exact H |].
  exact (proj2 (proj2 (proj2 (RecallFacts.search_score_range _ _ _ _ _ _ _ _ _ H)))).
Defined.

(** The best one of two entries is the first of the best two. *)
Lemma search_prefix_witness :
  let db := Memory.add_memory
              (Memory.add_memory Memory.init_db 1 "pass rate fell" 0)
              1 "pass rate rose" 10 in
  Memory.search db 1 "pass rate" 1 (15 # 100) 300 30
    = firstn 1 (Memory.search db 1 "pass rate" 2 (15 # 100) 300 30).
Proof.
  intros db.
  exact (RecallFacts.search_prefix db 1 "pass rate" 1 2 (15 # 100) 300 30
           ltac:(lia)).
Defined.

(** ** More on the short-term window *)

Module TurnFacts.
Import Memory Notions Spec.

Lemma pair_ind (P : list turn -> Prop) :
  P [] -> (forall u, P [u]) -> (forall u a l, P l -> P (u :: a :: l)) ->
  forall l, P l.
Proof.
  intros H0 H1 H2.
  assert (forall l, P l /\ forall u, P (u :: l)) as H.
  { induction l as [| a l [IH1 IH2]]; split; auto. }
  intros l. apply H.
Qed.

Lemma paired_app (l l' : list turn) : paired l -> paired l' -> paired (l ++ l').
Proof.
  intros Hl Hl'. induction l as [| u | u a l IH] using pair_ind; simpl in *.
  - exact Hl'.
  - destruct Hl.
  - destruct Hl as (Hu & Ha & Hl). auto.
Qed.

Lemma paired_skipn (l : list turn) :
  paired l -> forall n, paired (skipn (2 * n) l).
Proof.
  induction l as [| u | u a l IH] using pair_ind; intros Hl n.
  - now rewrite skipn_nil.
  - destruct Hl.
  - destruct n as [| n]; [exact Hl |].
    destruct Hl as (_ & _ & Hl).
    replace (2 * S n)%nat with (S (S (2 * n))) by lia. cbn [skipn].
    now apply IH.
Qed.

Lemma paired_even (l : list turn) :
  paired l -> exists n, List.length l = (2 * n)%nat.
Proof.
  induction l as [| u | u a l IH] using pair_ind; intros Hl.
  - now exists 0%nat.
  - destruct Hl.
  - destruct Hl as (_ & _ & Hl). destruct (IH Hl) as [n Hn].
    exists (S n). simpl. lia.
Qed.

Lemma new_pair_last (old : list turn) (u a : turn) (cap : Z) :
  (2 <= cap)%Z ->
  exists older, Py.slice_last (old ++ [u; a]) cap = (older ++ [u; a])%list.
Proof.
  intros Hc. rewrite WindowFacts.slice_last_pos by lia.
  exists (skipn (List.length old + 2 - Z.to_nat cap) old).
  rewrite length_app. cbn [List.length].
  rewrite skipn_app.
  replace (List.length old + 2 - Z.to_nat cap - List.length old)%nat with 0%nat
    by lia.
  reflexivity.
Qed.

(** X13. For a cap of at least two the window ends with the pair of this
    call, the user turn before the assistant turn, and the summary slot
    keeps its text, or becomes the empty text when it was absent. *)
Theorem update_keeps_new_pair (memory : short_term) (user_q assistant_a : string)
    (cap : Z) :
  (2 <= cap)%Z ->
  (exists older,
     recent_turns (update_short_term_memory memory user_q assistant_a cap)
       = Some (older ++ [mk_turn "user" user_q; mk_turn "assistant" assistant_a])) /\
  older_summary (update_short_term_memory memory user_q assistant_a cap)
    = Some (default EmptyString (older_summary memory)).
Proof.
  intros Hc. split; [| reflexivity].
  unfold update_short_term_memory. cbn [recent_turns].
  destruct (new_pair_last (default [] (recent_turns memory))
              (mk_turn "user" user_q) (mk_turn "assistant" assistant_a) cap Hc)
    as [older ->].
  now exists older.
Qed.

(** X14. For an even cap, and so for the default cap of 6, a window made
    of user and assistant pairs stays made of such pairs: the truncation
    never splits a pair. *)
Theorem update_keeps_pairs (memory : short_term) (user_q assistant_a : string)
    (cap : Z) :
  Z.even cap = true ->
  paired (default [] (recent_turns memory)) ->
  exists window,
    recent_turns (update_short_term_memory memory user_q assistant_a cap)
      = Some window /\ paired window.
Proof.
  intros Hev Hp. eexists. split; [reflexivity |].
  set (all := (default [] (recent_turns memory)
               ++ [mk_turn "user" user_q; mk_turn "assistant" assistant_a])%list).
  assert (paired all) as Hall
    by (apply paired_app; [exact Hp | simpl; tauto]).
  destruct (paired_even _ Hall) as [n Hn].
  apply Z.even_spec in Hev as [c Hc].
  unfold Py.slice_last. cbv zeta.
  destruct (Z.ltb_spec (- cap) 0) as [Hneg | Hpos].
  - replace (List.length all - Z.to_nat cap)%nat with (2 * (n - Z.to_nat c))%nat
      by lia.
    now apply paired_skipn.
  - replace (Z.to_nat (- cap)) with (2 * Z.to_nat (- c))%nat by lia.
    now apply paired_skipn.
Qed.

End TurnFacts.

(** A window of one pair under the default cap. *)
Lemma update_keeps_new_pair_witness :
  exists older,
    Memory.recent_turns
      (Memory.update_short_term_memory
         (Memory.mk_short_term
            (Some [Memory.mk_turn "user" "q1"; Memory.mk_turn "assistant" "a1"]) None)
         "q2" "a2" 6)
    = Some (older ++ [Memory.mk_turn "user" "q2"; Memory.mk_turn "assistant" "a2"]).
Proof.
  exact (proj1 (TurnFacts.update_keeps_new_pair
                  (Memory.mk_short_term
                     (Some [Memory.mk_turn "user" "q1"; Memory.mk_turn "assistant" "a1"])
                     None)
                  "q2" "a2" 6 ltac:(lia))).
Defined.

(** The same window keeps its pairs. *)
Lemma update_keeps_pairs_witness :
  exists window,
    Memory.recent_turns
      (Memory.update_short_term_memory
         (Memory.mk_short_term
            (Some [Memory.mk_turn "user" "q1"; Memory.mk_turn "assistant" "a1"]) None)
         "q2" "a2" 6)
    = Some window /\ Notions.paired window.
Proof.
  refine (TurnFacts.update_keeps_pairs
            (Memory.mk_short_term
               (Some [Memory.mk_turn "user" "q1"; Memory.mk_turn "assistant" "a1"])
               None)
            "q2" "a2" 6 eq_refl _).
  simpl. tauto.
Defined.

(** ** More on the SQL runner *)

Module RunnerFacts.
Import Db Spec.

Local Open Scope string_scope.

Lemma unsafe_skips_engine
    (engine engine' : string -> Z -> Res (list string * list (list cell)))
    (sql : string) (limit_rows : Z) :
  is_safe_select sql = false ->
  run_sql engine sql limit_rows = run_sql engine' sql limit_rows.
Proof. intros H. unfold run_sql. now rewrite H. Qed.

Lemma joined_not_error (sep : string) (cells : list string) (x : string)
    (l : list string) :
  String.prefix "SQL_ERROR: " (String.concat sep (table_line cells :: x :: l)) = false.
Proof. reflexivity. Qed.

Lemma render_not_error (cols : list string) (rows : list (list cell)) :
  Py.startswith (render cols rows) "SQL_ERROR: " = false.
Proof.
  unfold render. destruct cols as [| c cols]; [reflexivity |].
  unfold join, Py.startswith. cbn [app]. apply joined_not_error.
Qed.

(** X16. The error marker is unambiguous: the answer of [run_sql] starts
    with [SQL_ERROR: ] exactly when the statement was rejected or the
    engine raised; a rendered result never starts with it. *)
Theorem error_marker_iff
    (engine : string -> Z -> Res (list string * list (list cell)))
    (sql : string) (limit_rows : Z) :
  exists out,
    run_sql engine sql limit_rows = Ok out /\
    (Py.startswith out "SQL_ERROR: " = true <->
     is_safe_select sql = false \/ exists e, engine sql limit_rows = Raise e).
Proof.
  unfold run_sql. destruct (is_safe_select sql); simpl negb; cbv iota.
  - destruct (engine sql limit_rows) as [[cols rows] | e] eqn:E; simpl.
    + eexists. split; [reflexivity |]. rewrite render_not_error.
      split; [discriminate |]. intros [H | [e H]]; discriminate.
    + eexists. split; [reflexivity |]. split; [eauto |]. intros _.
      apply DbFacts.prefix_app.
  - eexists. split; [reflexivity |]. split; [auto |]. intros _.
    apply (DbFacts.prefix_app "SQL_ERROR: " ("Unsafe or invalid SQL detected: " ++ sql)).
Qed.

(** X17. The guard does not see letter case or white space around the
    statement. *)
Theorem is_safe_select_normalizes (sql : string) :
  is_safe_select (Py.lower sql) = is_safe_select sql /\
  is_safe_select (Py.strip sql) = is_safe_select sql.
Proof.
  unfold is_safe_select. split.
  - now rewrite <- QueryFacts.lower_strip, QueryFacts.lower_idem.
  - now rewrite StringFacts.strip_strip.
Qed.

End RunnerFacts.

(** A table of one row does not look like an error. *)
Lemma error_marker_iff_witness :
  exists out,
    Db.run_sql (fun _ _ => Ok (["x"%string], [[Some "1"%string]]))
      "SELECT x FROM t" 200 = Ok out /\
    Py.startswith out "SQL_ERROR: " <> true.
Proof.
  destruct (RunnerFacts.error_marker_iff
              (fun _ _ => Ok (["x"%string], [[Some "1"%string]]))
              "SELECT x FROM t" 200) as (out & Ho & Hiff).
  exists out. split; [exact Ho |].
  intros H. apply Hiff in H as [H | [e H]]; discriminate.
Defined.

(** ** More on routing *)

Module RouteFacts.
Import Graph Spec.

Local Open Scope string_scope.

Lemma app_assoc_s (a b c : string) : (a ++ b) ++ c = a ++ (b ++ c).
Proof.
  induction a as [| x a IH]; [reflexivity |].
  rewrite !DbFacts.append_cons. now rewrite IH.
Qed.

Lemma prefix_iff (w s : string) :
  String.prefix w s = true <-> exists post, s = w ++ post.
Proof.
  split.
  - intros H. eexists. now apply DbFacts.prefix_split.
  - intros [post ->]. apply DbFacts.prefix_app.
Qed.

Lemma contains_iff (needle hay : string) :
  Py.contains needle hay = true <->
  exists pre post, hay = pre ++ needle ++ post.
Proof.
  induction hay as [| c hay IH].
  - cbn [Py.contains]. rewrite orb_false_r, prefix_iff. split.
    + intros [post E]. now exists "", post.
    + intros (pre & post & E). destruct pre as [| d pre]; [| discriminate].
      now exists post.
  - cbn [Py.contains]. rewrite orb_true_iff, prefix_iff, IH. split.
    + intros [[post E] | (pre & post & E)].
      * now exists "", post.
      * exists (String c pre), post. now rewrite E.
    + intros (pre & post & E). destruct pre as [| d pre].
      * left. now exists post.
      * right. rewrite DbFacts.append_cons in E. injection E as -> E. eauto.
Qed.

Lemma lower_app (a b : string) : Py.lower (a ++ b) = Py.lower a ++ Py.lower b.
Proof.
  induction a as [| c a IH]; [reflexivity |].
  rewrite DbFacts.append_cons. simpl. now rewrite IH.
Qed.

Lemma any_in_embedded (triggers : list string) (q pre post : string) :
  Py.any_in triggers q = true -> Py.any_in triggers (pre ++ q ++ post) = true.
Proof.
  unfold Py.any_in. rewrite !existsb_exists.
  intros (t & Ht & Hc). exists t. split; [exact Ht |].
  apply contains_iff in Hc as (a & b & ->). apply contains_iff.
  exists (pre ++ a), (b ++ post). now rewrite !app_assoc_s.
Qed.

(** X18. A question is predictive exactly when its lower-cased text
    holds one of the eight trigger phrases somewhere, also inside a
    longer word. *)
Theorem is_predictive_iff (q : string) :
  is_predictive q = true <->
  exists t pre post,
    In t Notions.predictive_triggers /\ Py.lower q = pre ++ t ++ post.
Proof.
  unfold is_predictive. fold Notions.predictive_triggers.
  unfold Py.any_in. rewrite existsb_exists. split.
  - intros (t & Ht & Hc). apply contains_iff in Hc as (pre & post & E). eauto.
  - intros (t & pre & post & Ht & E). exists t. split; [exact Ht |].
    apply contains_iff. eauto.
Qed.

(** X19. A predictive trigger cannot be talked away: when a text is
    routed Predictive, so is every text that contains it, in any letter
    case of the surrounding words. *)
Theorem predictive_embedded (q pre post : string) :
  classify q = Predictive -> classify (pre ++ q ++ post) = Predictive.
Proof.
  unfold classify. destruct (is_predictive q) eqn:E.
  - intros _. unfold is_predictive in *.
    rewrite !lower_app. now rewrite (any_in_embedded _ _ _ _ E).
  - destruct (needs_sql q); discriminate.
Qed.

(** X20. Routing does not see letter case. *)
Theorem classify_lower (q : string) :
  classify (Py.lower q) = classify q /\
  is_predictive (Py.lower q) = is_predictive q /\
  needs_sql (Py.lower q) = needs_sql q.
Proof.
  unfold classify, is_predictive, needs_sql.
  now rewrite QueryFacts.lower_idem.
Qed.

End RouteFacts.

(** A predictive question inside a longer request for rows. *)
Lemma predictive_embedded_witness :
  Graph.classify
    ("show rows, then "%string ++ "suggest a strategy"%string ++ " from the table"%string)
  = Graph.Predictive.
Proof.
  exact (RouteFacts.predictive_embedded "suggest a strategy" "show rows, then "
           " from the table" eq_refl).
Defined.

(** The trigger [predict] inside [unpredictable]. *)
Lemma is_predictive_iff_witness :
  Graph.is_predictive "Why is the suite UNPREDICTABLE" = true.
Proof.
  apply (proj2 (RouteFacts.is_predictive_iff "Why is the suite UNPREDICTABLE")).
  exists "predict"%string, "why is the suite un"%string, "able"%string.
  split; [| reflexivity]. simpl. tauto.
Defined.

(** ** More on the metric step *)

Module MergeFacts.
Import Graph Notions Spec.

Section WithParsers.

Variable json_loads : string -> Res json.
Variable float_of_str : string -> option Q.

(** The step as a lookup table: it always returns a map, and each key
    holds the last converted value the reply has for it, or else what it
    held before. *)
Lemma extract_lookup (metrics : gmap string Q) (metric_text : string) :
  exists metrics' : gmap string Q,
    extract_metrics json_loads float_of_str metrics metric_text = Ok metrics' /\
    forall key,
      metrics' !! key =
        match last_converted float_of_str key (reply_pairs json_loads metric_text) with
        | Some f => Some f
        | None => metrics !! key
        end.
Proof.
  unfold extract_metrics, reply_pairs.
  destruct (Py.truthy metric_text).
  - destruct (json_loads metric_text) as [v | e]; cbn [bind try_except].
    + destruct (items (or_empty_dict v)) as [kvs | e]; cbn [bind try_except].
      * destruct (MetricFacts.store_metrics_ok float_of_str kvs metrics)
          as (m' & -> & Hm'). exists m'. split; [reflexivity | exact Hm'].
      * exists metrics. split; reflexivity.
    + exists metrics. split; reflexivity.
  - exists metrics. split; reflexivity.
Qed.

(** X21. The metric step never removes a metric: every key of the map
    it was given is a key of the map it returns, and a key the reply
    does not mention keeps its value. *)
Theorem extract_metrics_keeps_keys (metrics : gmap string Q) (metric_text : string) :
  exists metrics' : gmap string Q,
    extract_metrics json_loads float_of_str metrics metric_text = Ok metrics' /\
    (forall key, is_Some (metrics !! key) -> is_Some (metrics' !! key)) /\
    (forall key,
       ~ In key (List.map fst (reply_pairs json_loads metric_text)) ->
       metrics' !! key = metrics !! key).
Proof.
  destruct (extract_lookup metrics metric_text) as (m' & He & Hk).
  exists m'. split; [exact He |]. split.
  - intros key Hs. rewrite Hk.
    destruct (last_converted _ _ _); [eauto | exact Hs].
  - intros key Hn. rewrite Hk.
    assert (forall kvs, ~ In key (List.map fst kvs) ->
              last_converted float_of_str key kvs = None) as Hnone.
    { induction kvs as [| [k v] kvs IH]; intros Hnin; [reflexivity |].
      cbn [last_converted]. rewrite IH by (simpl in Hnin; tauto).
      destruct (String.eqb_spec k key) as [-> | _]; [| reflexivity].
      simpl in Hnin. tauto. }
    now rewrite Hnone.
Qed.

(** X22. Folding the same reply in twice is folding it in once. *)
Theorem extract_metrics_idempotent (metrics metrics' : gmap string Q)
    (metric_text : string) :
  extract_metrics json_loads float_of_str metrics metric_text = Ok metrics' ->
  extract_metrics json_loads float_of_str metrics' metric_text = Ok metrics'.
Proof.
  intros H.
  destruct (extract_lookup metrics metric_text) as (m1 & He1 & Hk1).
  destruct (extract_lookup metrics' metric_text) as (m2 & He2 & Hk2).
  rewrite H in He1. injection He1 as <-.
  rewrite He2. f_equal. apply map_eq. intros key.
  rewrite Hk2, Hk1. now destruct (last_converted _ _ _).
Qed.

End WithParsers.

End MergeFacts.

(** A map with a count of runs keeps that key through an array reply and
    through an object reply. *)
Lemma extract_metrics_keeps_keys_witness :
  exists metrics' : gmap string Q,
    Graph.extract_metrics Toy.json_loads Toy.float_of_str
      {[ "sessions"%string := 3%Q ]} "object reply" = Ok metrics' /\
    metrics' !! "sessions"%string = Some 3%Q.
Proof.
  destruct (MergeFacts.extract_metrics_keeps_keys Toy.json_loads Toy.float_of_str
              {[ "sessions"%string := 3%Q ]} "object reply") as (m' & He & _ & Hk).
  exists m'. split; [exact He |].
  rewrite Hk; [reflexivity |].
  vm_compute. intuition discriminate.
Defined.

(** The object reply, folded in twice. *)
Lemma extract_metrics_idempotent_witness :
  exists metrics' : gmap string Q,
    Graph.extract_metrics Toy.json_loads Toy.float_of_str ∅ "object reply"
      = Ok metrics' /\
    Graph.extract_metrics Toy.json_loads Toy.float_of_str metrics' "object reply"
      = Ok metrics'.
Proof.
  destruct (MergeFacts.extract_lookup Toy.json_loads Toy.float_of_str ∅
              "object reply") as (m' & He & _).
  exists m'. split; [exact He |].
  exact (MergeFacts.extract_metrics_idempotent Toy.json_loads Toy.float_of_str
           ∅ m' "object reply" He).
Defined.

(** ** The chat wrapper *)

Module LlmFacts.
Import Llm.


End LlmFacts.


(** ** The node [handle_query] *)

Module NodeFacts.
Import Llm Orchestrator Notions Spec.

Lemma run_sql_returns
    (engine : string -> Z -> Res (list string * list (list Db.cell)))
    (sql : string) (limit_rows : Z) :
  exists out, Db.run_sql engine sql limit_rows = Ok out.
Proof.
  unfold Db.run_sql. destruct (negb (Db.is_safe_select sql)); [eauto |].
  destruct (engine sql limit_rows); simpl; eauto.
Qed.

Section WithCollaborators.

Variable chat : nat -> list message -> Res string.
Variable execute_fetch : string -> Z -> Res (list string * list (list Db.cell)).
Variable json_loads : string -> Res Graph.json.
Variable float_of_str : string -> option Q.
Variable now_search now_add : Q.
Variable SQL_GEN_SYSTEM_PROMPT QA_SYSTEM_PROMPT : string.
Variable METRIC_EXTRACTION_PROMPT PREDICTIVE_SYSTEM_PROMPT : string.
Variable format_score : Q -> string.
Variable format_metrics : gmap string Q -> string.

Local Abbreviation run_node :=
  (handle_query chat execute_fetch json_loads float_of_str now_search now_add
     SQL_GEN_SYSTEM_PROMPT QA_SYSTEM_PROMPT METRIC_EXTRACTION_PROMPT
     PREDICTIVE_SYSTEM_PROMPT format_score format_metrics).

Lemma node_outcome (state : app_state) (lt_store : Memory.store) :
  let user_q := default EmptyString (st_user_query state) in
  match run_node state lt_store with
  | (Ok out, lt_store') =>
      memory out
        = Memory.update_short_term_memory (memory_or_default (st_memory state))
            user_q (answer out) 6 /\
      Py.strip (answer out) = answer out /\
      (exists text,
         lt_store' = match st_user_id state with
                     | Some uid => Memory.add_memory lt_store uid text now_add
                     | None => lt_store
                     end) /\
      match Graph.classify user_q with
      | Graph.SqlAnalytic =>
          exists statement result metric_text,
            sql out = Some statement /\ sql_results out = Some result /\
            Db.run_sql execute_fetch statement 200 = Ok result /\
            Graph.extract_metrics json_loads float_of_str
              (default ∅ (st_metrics state)) metric_text = Ok (metrics out)
      | _ =>
          sql out = None /\ sql_results out = None /\
          metrics out = default ∅ (st_metrics state)
      end
  | (Raise e, lt_store') =>
      lt_store' = lt_store /\ exists n prompt, chat n prompt = Raise e
  end.
Proof.
  intros user_q. unfold handle_query, Graph.classify.
  fold user_q.
  unfold bindM, lift, read, ret, remember, write.
  destruct (Graph.is_predictive user_q).
  - destruct (st_user_id state) as [uid |];
      (destruct (chat 0 _) as [reply | e] eqn:Ec; cbn;
       [ repeat split; eauto using StringFacts.strip_strip
       | split; eauto ]).
  - destruct (Graph.needs_sql user_q).
    + destruct (st_user_id state) as [uid |].
      all: destruct (chat 0 _) as [reply | e] eqn:Ec0; [| cbn; split; eauto].
      all: destruct (run_sql_returns execute_fetch (Py.strip reply) 200) as [res Hres];
        rewrite Hres.
      all: destruct (chat 1 _) as [reply1 | e] eqn:Ec1; [| cbn; split; eauto].
      all: destruct (MergeFacts.extract_lookup json_loads float_of_str
                       (default ∅ (st_metrics state)) (Py.strip reply1))
             as (m' & He & _); rewrite He.
      all: destruct (chat 2 _) as [reply2 | e] eqn:Ec2; [| cbn; split; eauto].
      all: cbn; repeat split; eauto 10 using StringFacts.strip_strip.
    + destruct (st_user_id state) as [uid |];
        (destruct (chat 0 _) as [reply | e] eqn:Ec; cbn;
         [ repeat split; eauto using StringFacts.strip_strip
         | split; eauto ]).
Qed.

Lemma node_store (state : app_state) (lt_store : Memory.store) :
  exists text,
    snd (run_node state lt_store) = lt_store \/
    exists uid, st_user_id state = Some uid /\
      snd (run_node state lt_store) = Memory.add_memory lt_store uid text now_add.
Proof.
  pose proof (node_outcome state lt_store) as H. cbv zeta in H.
  destruct (run_node state lt_store) as [[out | e] s'].
  - destruct H as (_ & _ & [text Hs] & _). exists text. cbn [snd].
    destruct (st_user_id state) as [uid |]; [right; eauto | now left].
  - exists EmptyString. left. apply H.
Qed.

(** X24. When the node returns, the short-term window it hands back is
    the old window with the question and the answer appended and cut to
    the last six turns: it ends with that pair and has at most six
    entries; the answer is trimmed. *)
Theorem node_commits_turn (state : app_state) (lt_store lt_store' : Memory.store)
    (out : node_update) :
  run_node state lt_store = (Ok out, lt_store') ->
  let user_q := default EmptyString (st_user_query state) in
  (exists window older,
     Memory.recent_turns (memory out) = Some window /\
     window = (older ++ [Memory.mk_turn "user" user_q;
                         Memory.mk_turn "assistant" (answer out)])%list /\
     (List.length window <= 6)%nat) /\
  Py.strip (answer out) = answer out.
Proof.
  intros Hrun user_q.
  pose proof (node_outcome state lt_store) as H. cbv zeta in H.
  rewrite Hrun in H. destruct H as (Hm & Ha & _).
  split; [| exact Ha]. rewrite Hm.
  unfold Memory.update_short_term_memory. cbn [Memory.recent_turns].
  fold user_q.
  destruct (TurnFacts.new_pair_last
              (default [] (Memory.recent_turns (memory_or_default (st_memory state))))
              (Memory.mk_turn "user" user_q)
              (Memory.mk_turn "assistant" (answer out)) 6 ltac:(lia))
    as [older E].
  eexists _, older. split; [reflexivity |]. split; [exact E |].
  pose proof (WindowFacts.slice_last_length
                (default [] (Memory.recent_turns (memory_or_default (st_memory state)))
                 ++ [Memory.mk_turn "user" user_q;
                     Memory.mk_turn "assistant" (answer out)])%list 6 ltac:(lia)).
  lia.
Qed.


(** X26. The keys of the answer follow the route: [sql] and
    [sql_results] are present exactly on the SQL route, where
    [sql_results] is what [run_sql] answered for [sql] under the row cap
    of 200; on the other two routes the metrics are those that came in. *)
Theorem node_routes (state : app_state) (lt_store lt_store' : Memory.store)
    (out : node_update) :
  run_node state lt_store = (Ok out, lt_store') ->
  let user_q := default EmptyString (st_user_query state) in
  (Graph.classify user_q = Graph.SqlAnalytic <-> sql out <> None) /\
  (Graph.classify user_q = Graph.SqlAnalytic <-> sql_results out <> None) /\
  (forall statement result,
     sql out = Some statement -> sql_results out = Some result ->
     Db.run_sql execute_fetch statement 200 = Ok result) /\
  (Graph.classify user_q <> Graph.SqlAnalytic ->
     metrics out = default ∅ (st_metrics state)).
Proof.
  intros Hrun user_q.
  pose proof (node_outcome state lt_store) as H. cbv zeta in H.
  rewrite Hrun in H. destruct H as (_ & _ & _ & H). fold user_q in H.
  destruct (Graph.classify user_q).
  - destruct H as (H1 & H2 & H3). rewrite H1, H2.
    repeat split; try discriminate; try congruence.
  - destruct H as (st & res & mt & H1 & H2 & H3 & _). rewrite H1, H2.
    repeat split; try discriminate; try congruence.
  - destruct H as (H1 & H2 & H3). rewrite H1, H2.
    repeat split; try discriminate; try congruence.
Qed.

(** X27. The node writes at most one row to the ledger, for the user of
    the session and stamped by the clock, and none for a session
    without user; it never touches table [users], and it keeps the
    invariant of the store. *)
Theorem node_store_effect (state : app_state) (lt_store : Memory.store) :
  let lt_store' := snd (run_node state lt_store) in
  Memory.users lt_store' = Memory.users lt_store /\
  (st_user_id state = None -> lt_store' = lt_store) /\
  (exists added,
     Memory.memories lt_store' = (Memory.memories lt_store ++ added)%list /\
     (List.length added <= 1)%nat /\
     Forall (fun r => Some (Memory.m_user_id r) = st_user_id state /\
                      Memory.m_created_ts r = now_add) added) /\
  (store_ok lt_store -> store_ok lt_store').
Proof.
  intros lt_store'. subst lt_store'.
  destruct (node_store state lt_store) as [text [-> | (uid & Hu & ->)]].
  - split; [reflexivity |]. split; [reflexivity |]. split; [| tauto].
    exists []. rewrite app_nil_r. repeat split; [simpl; lia | constructor].
  - split; [| split; [| split]].
    + unfold Memory.add_memory. now destruct (negb _).
    + congruence.
    + unfold Memory.add_memory. destruct (negb _).
      * exists []. rewrite app_nil_r. repeat split; [simpl; lia | constructor].
      * eexists. cbn [Memory.memories]. split; [reflexivity |].
        split; [simpl; lia |]. constructor; [| constructor]. now rewrite Hu.
    + apply StoreFacts.add_memory_ok.
Qed.

(** X15. A statement the guard rejects never reaches the engine: when
    the chat model writes only statements that the guard rejects, the
    node does the same over any two engines. *)
Theorem node_never_runs_unsafe_sql
    (execute_fetch' : string -> Z -> Res (list string * list (list Db.cell)))
    (state : app_state) (lt_store : Memory.store) :
  (forall prompt reply,
     chat 0 prompt = Ok reply -> Db.is_safe_select (Py.strip reply) = false) ->
  run_node state lt_store
  = handle_query chat execute_fetch' json_loads float_of_str now_search now_add
      SQL_GEN_SYSTEM_PROMPT QA_SYSTEM_PROMPT METRIC_EXTRACTION_PROMPT
      PREDICTIVE_SYSTEM_PROMPT format_score format_metrics state lt_store.
Proof.
  intros Hunsafe. unfold handle_query.
  unfold bindM, lift, read, ret, remember, write.
  destruct (st_user_id state) as [uid |];
    (destruct (Graph.is_predictive _); [reflexivity |];
     destruct (Graph.needs_sql _); [| reflexivity];
     destruct (chat 0 _) as [reply |] eqn:E; [| reflexivity];
     now rewrite (RunnerFacts.unsafe_skips_engine execute_fetch execute_fetch'
                    _ 200 (Hunsafe _ _ E))).
Qed.

(** X28. A session without user never consults the long-term store: the
    node answers alike over any two stores. *)
Theorem node_anonymous (state : app_state) (lt_store lt_store2 : Memory.store) :
  st_user_id state = None ->
  fst (run_node state lt_store) = fst (run_node state lt_store2).
Proof.
  intros Hu. unfold handle_query.
  unfold bindM, lift, read, ret, remember, write. rewrite Hu.
  destruct (Graph.is_predictive _).
  - now destruct (chat 0 _).
  - destruct (Graph.needs_sql _).
    + destruct (chat 0 _) as [reply |]; [| reflexivity].
      destruct (Db.run_sql _ _ _) as [res |]; [| reflexivity].
      destruct (chat 1 _) as [reply1 |]; [| reflexivity].
      destruct (Graph.extract_metrics _ _ _ _) as [m' |]; [| reflexivity].
      now destruct (chat 2 _).
    + now destruct (chat 0 _).
Qed.

End WithCollaborators.

End NodeFacts.

(** A request for rows by user 1, over the stand-ins. *)
Lemma node_commits_turn_witness :
  exists out lt_store',
    Stub.node Stub.chat (Stub.state (Some 1%Z) "show me the runs") Memory.init_db
      = (Ok out, lt_store') /\
    Py.strip (Orchestrator.answer out) = Orchestrator.answer out.
Proof.
  destruct (Stub.node Stub.chat (Stub.state (Some 1%Z) "show me the runs")
              Memory.init_db) as [[out | e] s'] eqn:E.
  - exists out, s'. split; [reflexivity |]. unfold Stub.node in E.
    exact (proj2 (NodeFacts.node_commits_turn _ _ _ _ _ _ _ _ _ _ _ _ _ _ _ _ E)).
  - vm_compute in E. discriminate.
Defined.


(** The request for rows carries its statement and its table. *)
Lemma node_routes_witness :
  exists out lt_store',
    Stub.node Stub.chat (Stub.state (Some 1%Z) "show me the runs") Memory.init_db
      = (Ok out, lt_store') /\
    Orchestrator.sql out <> None.
Proof.
  destruct (Stub.node Stub.chat (Stub.state (Some 1%Z) "show me the runs")
              Memory.init_db) as [[out | e] s'] eqn:E.
  - exists out, s'. split; [reflexivity |]. unfold Stub.node in E.
    exact (proj1 (proj1 (NodeFacts.node_routes _ _ _ _ _ _ _ _ _ _ _ _ _ _ _ _ E))
             eq_refl).
  - vm_compute in E. discriminate.
Defined.

(** A session without user leaves alice's store as it is. *)
Lemma node_store_effect_witness :
  snd (Stub.node Stub.chat (Stub.state None "show me the runs") Toy.alice_db)
  = Toy.alice_db.
Proof.
  exact (proj1 (proj2 (NodeFacts.node_store_effect Stub.chat Stub.engine
                         Toy.json_loads Toy.float_of_str 5 6 "" "" "" ""
                         Stub.no_format Stub.no_format
                         (Stub.state None "show me the runs") Toy.alice_db))
           eq_refl).
Defined.

(** A session without user answers alike over two stores. *)
Lemma node_anonymous_witness :
  fst (Stub.node Stub.chat (Stub.state None "what is our pass rate") Memory.init_db)
  = fst (Stub.node Stub.chat (Stub.state None "what is our pass rate") Toy.alice_db).
Proof.
  exact (NodeFacts.node_anonymous Stub.chat Stub.engine Toy.json_loads
           Toy.float_of_str 5 6 "" "" "" "" Stub.no_format Stub.no_format
           (Stub.state None "what is our pass rate") Memory.init_db Toy.alice_db
           eq_refl).
Defined.

(** A document of punctuation only. *)
Lemma keyword_score_bounds_witness :
  (Memory.keyword_score "pass rate" "!! ??" <= 25 # 100)%Q.
Proof.
  exact (proj2 (ScoreFacts.keyword_score_bounds "pass rate" "!! ??") eq_refl).
Defined.

(** A chat model that writes an UPDATE: the node does the same over an
    engine that answers and over one that fails. *)
Lemma node_never_runs_unsafe_sql_witness :
  let talk := fun (n : nat) (_ : list Llm.message) =>
                match n with
                | O => Ok " UPDATE runs SET name = NULL "%string
                | _ => Ok "done"%string
                end in
  let st := Stub.state (Some 1%Z) "show me the runs" in
  Stub.node talk st Memory.init_db
  = Orchestrator.handle_query talk (fun _ _ => Raise (EngineError "down"))
      Toy.json_loads Toy.float_of_str 5 6 "" "" "" ""
      Stub.no_format Stub.no_format st Memory.init_db.
Proof.
  intros talk st.
  refine (NodeFacts.node_never_runs_unsafe_sql talk Stub.engine Toy.json_loads
            Toy.float_of_str 5 6 "" "" "" "" Stub.no_format Stub.no_format
            (fun _ _ => Raise (EngineError "down")) st Memory.init_db _).
  intros prompt reply H. injection H as <-. reflexivity.
Defined.

(** A padded text and a padded query. *)
Lemma store_and_search_trim_witness :
  Memory.add_memory Memory.init_db 1 (Py.strip "  pass rate fell ") 0
  = Memory.add_memory Memory.init_db 1 "  pass rate fell " 0.
Proof.
  exact (proj1 (RecallFacts.store_and_search_trim Memory.init_db 1
                  "  pass rate fell " " pass rate " 0 5 (15 # 100) 300)).
Defined.
